(** * orenoagent-cli: a shallow embedding of the chat client and its tools

    The repository is a terminal chat client: [tool.go] declares three
    tools handed to the agent library, and the two [main] variants
    (kept here as [Part000] and [Part001]) hold the bubbletea model whose
    [Update] method maps terminal and agent events to transcript updates.

    Library code (bubbletea, bubbles, lipgloss, encoding/json, net/http,
    time) is not part of the repository.  What the program needs of it is
    either modelled here by a small executable definition, or taken as an
    interface ([Bubbles], [World]) whose laws are stated where used. *)

From Stdlib Require Import ZArith List String Ascii Bool Lia.
Import ListNotations.

Local Open Scope string_scope.
Local Open Scope Z_scope.

Set Warnings "-register-all".

(** ** Go strings *)

Module Str.

Definition LF : ascii := ascii_of_nat 10.
Definition CR : ascii := ascii_of_nat 13.

(** The Go literal ["\n"]. *)
Definition nl : string := String LF EmptyString.

(** [len(s)] *)
Definition len (s : string) : Z := Z.of_nat (String.length s).

(** [s[:n]] for [0 <= n], cut at [len(s)] *)
Fixpoint take (n : nat) (s : string) : string :=
  match n, s with
  | O, _ => EmptyString
  | _, EmptyString => EmptyString
  | S n', String c s' => String c (take n' s')
  end.

(** [s[n:]] for [0 <= n], empty beyond [len(s)] *)
Fixpoint drop (n : nat) (s : string) : string :=
  match n, s with
  | O, _ => s
  | _, EmptyString => EmptyString
  | S n', String _ s' => drop n' s'
  end.

(** [strings.Join(l, sep)] *)
Fixpoint Join (l : list string) (sep : string) : string :=
  match l with
  | [] => EmptyString
  | [x] => x
  | x :: rest => x ++ sep ++ Join rest sep
  end.

(** [strings.ReplaceAll(s, "\r\n", "\n")] *)
Fixpoint normalizeLineEndings (s : string) : string :=
  match s with
  | EmptyString => EmptyString
  | String c rest =>
      match rest with
      | String d _ =>
          if (Ascii.eqb c CR && Ascii.eqb d LF)%bool
          then normalizeLineEndings rest
          else String c (normalizeLineEndings rest)
      | EmptyString => String c EmptyString
      end
  end.

(** [strings.Split(s, "\n")], accumulating the current line in [cur]. *)
Fixpoint splitLinesFrom (cur : string) (s : string) : list string :=
  match s with
  | EmptyString => [cur]
  | String c rest =>
      if Ascii.eqb c LF
      then cur :: splitLinesFrom EmptyString rest
      else splitLinesFrom (cur ++ String c EmptyString) rest
  end.

Definition splitLines (s : string) : list string :=
  splitLinesFrom EmptyString s.

(** [strings.Count(s, "\n")] *)
Fixpoint countLF (s : string) : Z :=
  match s with
  | EmptyString => 0
  | String c rest => (if Ascii.eqb c LF then 1 else 0) + countLF rest
  end.

(** A byte that continues a UTF-8 sequence. *)
Definition isCont (c : ascii) : bool :=
  let n := nat_of_ascii c in ((128 <=? n) && (n <=? 191))%nat.


(** [string([]rune(s)[:n])], cut at the end of [s]: the first [n]
    runes. *)
Fixpoint takeRunes (n : nat) (s : string) : string :=
  match s with
  | EmptyString => EmptyString
  | String c rest =>
      if isCont c then String c (takeRunes n rest)
      else
        match n with
        | O => EmptyString
        | S n' => String c (takeRunes n' rest)
        end
  end.

(** [strings.Repeat(s, n)] *)
Fixpoint Repeat (s : string) (n : nat) : string :=
  match n with
  | O => EmptyString
  | S n' => s ++ Repeat s n'
  end.

(** A combining mark, U+0300 to U+036F, at the head of [String c rest]:
    the bytes CC 80 to CD AF. *)
Definition isCombining (c : ascii) (rest : string) : bool :=
  match rest with
  | String d _ =>
      let n := nat_of_ascii c in
      let k := nat_of_ascii d in
      (((n =? 204) && (128 <=? k) && (k <=? 191))
       || ((n =? 205) && (128 <=? k) && (k <=? 175)))%nat
  | EmptyString => false
  end.

(** The display width of a line of plain text: a cell for a character,
    none for a combining mark.  (Wide characters, which take two cells,
    are not told apart.) *)
Fixpoint cells (s : string) : Z :=
  match s with
  | EmptyString => 0
  | String c rest =>
      (if isCont c then 0 else if isCombining c rest then 0 else 1)
      + cells rest
  end.

End Str.

(** ** Go errors: a value with an [Error()] method.
    [fmt.Sprintf("%v", err)] is [Error err]. *)

Inductive error : Type := mkError (msg : string).

Definition Error (e : error) : string :=
  match e with mkError msg => msg end.

(** ** bubbletea messages and commands *)

Module tea.

Inductive KeyType : Type :=
| KeyRunes
| KeyEnter
| KeyCtrlJ
| KeyCtrlC
| KeyEsc
| KeyOther (code : Z).

(** [tea.Key] *)
Record Key : Type := mkKey {
  Type_ : KeyType;
  Runes : string;
  Alt : bool
}.

(** [tea.Cmd]; [Batch] is [tea.Batch(a, b)], [Lib] a command built
    inside a library component (cursor blink, scrolling). *)
Inductive Cmd : Type :=
| CmdNil
| Quit
| Blink
| Lib (tag : Z)
| Batch (a b : Cmd).

End tea.

(** [tea.Msg] is an open interface; these are the dynamic types the
    program's type switch distinguishes, the three message structs of the
    program among them.  [otherMsg] stands for every other library
    message (cursor blink, mouse, focus). *)
Inductive Msg : Type :=
| WindowSizeMsg (Width Height : Z)
| answerMessage (message : string)
| reasoningMessage (message : string)
| functionCallMessage (message : string)
| KeyMsg (k : tea.Key)
| errMsg (e : error)
| otherMsg (tag : Z).

(** ** lipgloss styles *)

Module lipgloss.

(** The style properties the program sets. *)
Record Style : Type := mkStyle {
  background : option string;
  foreground : option string;
  width : option Z;
  normalBorder : bool;
  borderBottom : bool;
  borderForeground : option string;
  paddingTop : Z;
  paddingLeft : Z;
  paddingRight : Z
}.

Definition NewStyle : Style :=
  mkStyle None None None false false None 0 0 0.

Definition Color (c : string) : string := c.

Definition Background (c : string) (s : Style) : Style :=
  mkStyle (Some c) (foreground s) (width s) (normalBorder s)
    (borderBottom s) (borderForeground s) (paddingTop s) (paddingLeft s)
    (paddingRight s).

Definition Foreground (c : string) (s : Style) : Style :=
  mkStyle (background s) (Some c) (width s) (normalBorder s)
    (borderBottom s) (borderForeground s) (paddingTop s) (paddingLeft s)
    (paddingRight s).

Definition Width (w : Z) (s : Style) : Style :=
  mkStyle (background s) (foreground s) (Some w) (normalBorder s)
    (borderBottom s) (borderForeground s) (paddingTop s) (paddingLeft s)
    (paddingRight s).

Definition BorderStyleNormal (s : Style) : Style :=
  mkStyle (background s) (foreground s) (width s) true
    (borderBottom s) (borderForeground s) (paddingTop s) (paddingLeft s)
    (paddingRight s).

Definition BorderBottom (b : bool) (s : Style) : Style :=
  mkStyle (background s) (foreground s) (width s) (normalBorder s)
    b (borderForeground s) (paddingTop s) (paddingLeft s)
    (paddingRight s).

Definition BorderForeground (c : string) (s : Style) : Style :=
  mkStyle (background s) (foreground s) (width s) (normalBorder s)
    (borderBottom s) (Some c) (paddingTop s) (paddingLeft s)
    (paddingRight s).

Definition PaddingTop (n : Z) (s : Style) : Style :=
  mkStyle (background s) (foreground s) (width s) (normalBorder s)
    (borderBottom s) (borderForeground s) n (paddingLeft s)
    (paddingRight s).

Definition PaddingLeft (n : Z) (s : Style) : Style :=
  mkStyle (background s) (foreground s) (width s) (normalBorder s)
    (borderBottom s) (borderForeground s) (paddingTop s) n
    (paddingRight s).

Definition PaddingRight (n : Z) (s : Style) : Style :=
  mkStyle (background s) (foreground s) (width s) (normalBorder s)
    (borderBottom s) (borderForeground s) (paddingTop s) (paddingLeft s)
    n.

(** [lipgloss.Height(s)]: the number of lines of [s]. *)
Definition Height (s : string) : Z := Str.countLF s + 1.

End lipgloss.

(** ** bubbles/textarea: the input box *)

Module textarea.

Record Model : Type := mkModel {
  Placeholder : string;
  Prompt : string;
  CharLimit : Z;
  ShowLineNumbers : bool;
  CursorLine : lipgloss.Style;      (* FocusedStyle.CursorLine *)
  InsertNewline : bool;             (* KeyMap.InsertNewline enabled *)
  focus : bool;
  width : Z;
  height : Z;
  value : string;
  col : nat                         (* cursor offset into [value] *)
}.

Definition set_Placeholder (p : string) (m : Model) : Model :=
  mkModel p (Prompt m) (CharLimit m) (ShowLineNumbers m) (CursorLine m)
    (InsertNewline m) (focus m) (width m) (height m) (value m) (col m).

Definition set_Prompt (p : string) (m : Model) : Model :=
  mkModel (Placeholder m) p (CharLimit m) (ShowLineNumbers m)
    (CursorLine m) (InsertNewline m) (focus m) (width m) (height m)
    (value m) (col m).

Definition set_CharLimit (n : Z) (m : Model) : Model :=
  mkModel (Placeholder m) (Prompt m) n (ShowLineNumbers m) (CursorLine m)
    (InsertNewline m) (focus m) (width m) (height m) (value m) (col m).

Definition set_ShowLineNumbers (b : bool) (m : Model) : Model :=
  mkModel (Placeholder m) (Prompt m) (CharLimit m) b (CursorLine m)
    (InsertNewline m) (focus m) (width m) (height m) (value m) (col m).

Definition set_CursorLine (s : lipgloss.Style) (m : Model) : Model :=
  mkModel (Placeholder m) (Prompt m) (CharLimit m) (ShowLineNumbers m) s
    (InsertNewline m) (focus m) (width m) (height m) (value m) (col m).

(** [m.KeyMap.InsertNewline.SetEnabled(b)] *)
Definition InsertNewline_SetEnabled (b : bool) (m : Model) : Model :=
  mkModel (Placeholder m) (Prompt m) (CharLimit m) (ShowLineNumbers m)
    (CursorLine m) b (focus m) (width m) (height m) (value m) (col m).

Definition Focus (m : Model) : Model :=
  mkModel (Placeholder m) (Prompt m) (CharLimit m) (ShowLineNumbers m)
    (CursorLine m) (InsertNewline m) true (width m) (height m) (value m)
    (col m).

Definition SetWidth (w : Z) (m : Model) : Model :=
  mkModel (Placeholder m) (Prompt m) (CharLimit m) (ShowLineNumbers m)
    (CursorLine m) (InsertNewline m) (focus m) w (height m) (value m)
    (col m).

Definition SetHeight (h : Z) (m : Model) : Model :=
  mkModel (Placeholder m) (Prompt m) (CharLimit m) (ShowLineNumbers m)
    (CursorLine m) (InsertNewline m) (focus m) (width m) h (value m)
    (col m).

Definition Height (m : Model) : Z := height m.

Definition Value (m : Model) : string := value m.

Definition set_value (v : string) (c : nat) (m : Model) : Model :=
  mkModel (Placeholder m) (Prompt m) (CharLimit m) (ShowLineNumbers m)
    (CursorLine m) (InsertNewline m) (focus m) (width m) (height m) v c.

(** [Reset()] empties the box and moves the cursor home. *)
Definition Reset (m : Model) : Model := set_value EmptyString O m.

(** The rows of the box. *)
Definition rows (m : Model) : list string := Str.splitLines (value m).

(** [Length()]: the display widths of the rows, and one for each
    newline between them; [cellsOf] is the display width of a row
    ([uniseg.StringWidth]). *)
Definition Length (cellsOf : string -> Z) (m : Model) : Z :=
  fold_right (fun row n => cellsOf row + n) 0 (rows m)
  + (Z.of_nat (List.length (rows m)) - 1).

(** The most rows a box takes. *)
Definition maxHeight : Z := 99.

(** [InsertString(s)], for a text the input sanitizer leaves as it is
    (the program inserts a newline only).  With a positive [CharLimit]
    nothing goes in once [Length()] has reached it, and no more runes
    than the cells that are left; lines beyond the most rows a box takes
    are dropped; what remains goes in at the cursor. *)
Definition InsertString (cellsOf : string -> Z) (s : string) (m : Model)
  : Model :=
  let put (r : string) :=
    set_value
      (Str.take (col m) (value m) ++ r ++ Str.drop (col m) (value m))
      (Nat.min (col m) (String.length (value m)) + String.length r)%nat
      m in
  let insert (runes : string) :=
    let lines := Str.splitLines runes in
    let height := Z.of_nat (List.length (rows m)) in
    let lines :=
      if maxHeight <? height + Z.of_nat (List.length lines) - 1
      then firstn (Z.to_nat (Z.max 0 (maxHeight - height + 1))) lines
      else lines in
    match lines with
    | [] => m
    | _ => put (Str.Join lines Str.nl)
    end in
  if 0 <? CharLimit m then
    let availSpace := CharLimit m - Length cellsOf m in
    if availSpace <=? 0 then m
    else insert (Str.takeRunes (Z.to_nat availSpace) s)
  else insert s.

End textarea.

(** ** bubbles/viewport: the scrollback *)

Module viewport.

Record Model : Type := mkModel {
  Width : Z;
  Height : Z;
  YOffset : Z;
  lines : list string
}.

Definition New (w h : Z) : Model := mkModel w h 0 [].

Definition set_Width (w : Z) (m : Model) : Model :=
  mkModel w (Height m) (YOffset m) (lines m).

Definition set_Height (h : Z) (m : Model) : Model :=
  mkModel (Width m) h (YOffset m) (lines m).

Definition maxYOffset (m : Model) : Z :=
  Z.max 0 (Z.of_nat (List.length (lines m)) - Height m).

(** [GotoBottom()] puts the scroll offset at its largest value.  The
    library goes on to slice the visible lines and panics there when
    the height is negative and there is content; the model is of the
    calls that return. *)
Definition GotoBottom (m : Model) : Model :=
  mkModel (Width m) (Height m) (maxYOffset m) (lines m).

(** [SetContent(s)] replaces the displayed lines, and moves a scroll
    offset that fell off the end back to the bottom. *)
Definition SetContent (s : string) (m : Model) : Model :=
  let m' :=
    mkModel (Width m) (Height m) (YOffset m)
      (Str.splitLines (Str.normalizeLineEndings s)) in
  if Z.of_nat (List.length (lines m')) - 1 <? YOffset m'
  then GotoBottom m' else m'.

(** The text on display, as handed to [SetContent]. *)
Definition content (m : Model) : string := Str.Join (lines m) Str.nl.

End viewport.

(** ** The terminal libraries the program runs on

    The parts of bubbles and lipgloss that depend on the terminal or on
    the full key map. *)

Class Bubbles : Type := {
  Render : lipgloss.Style -> string -> string;
  textarea_New : textarea.Model;
  textarea_Update : textarea.Model -> Msg -> textarea.Model * tea.Cmd;
  textarea_View : textarea.Model -> string;
  viewport_Update : viewport.Model -> Msg -> viewport.Model * tea.Cmd;
  viewport_View : viewport.Model -> string;
  StringWidth : string -> Z              (* the display width of a row *)
}.

(** What the properties below ask of the textarea's [Update], each
    where it is used: with newline insertion switched off, the Enter key
    leaves the text alone; no message changes the key map; no message
    changes the limit. *)
Definition EnterLeavesText (B : Bubbles) : Prop :=
  forall m k,
    tea.Type_ k = tea.KeyEnter -> tea.Runes k = EmptyString ->
    textarea.InsertNewline m = false ->
    textarea.value (fst (textarea_Update m (KeyMsg k))) = textarea.value m.

Definition KeyMapKept (B : Bubbles) : Prop :=
  forall m msg,
    textarea.InsertNewline (fst (textarea_Update m msg))
    = textarea.InsertNewline m.


(** ** What one [Update] step does to the outside world *)

Inductive Effect : Type :=
| Println (s : string)          (* fmt.Println(s) *)
| GoAsk (question : string).    (* ask(question, program): go func() {...}() *)

(** The agent's stream of results; [OtherResult] is any result type the
    forwarding switch has no case for. *)
Inductive Result : Type :=
| MessageResult (s : string)
| ReasoningResult (s : string)
| FunctionCallResult (s : string)
| OtherResult.

(** ** Transcript entries as the specification names them

    The program keeps the transcript as rendered strings; this is the
    specification's view of it ([{role, text}]), used to say what each
    string stands for. *)

Inductive Role : Type :=
| User
| AgentAnswer
| AgentReasoning
| AgentFunctionCall.

Record Entry : Type := mkEntry { role : Role; text : string }.

Definition isUser (e : Entry) : bool :=
  match role e with User => true | _ => false end.

(** * The program, variant with the tools in [tool.go] (part_000) *)

Module Part000.
Section WithBubbles.
Context {B : Bubbles}.

(** [const gap = "\n\n"] *)
Definition gap : string := Str.nl ++ Str.nl.

Definition badge : lipgloss.Style :=
lipgloss.Background (lipgloss.Color "2") lipgloss.NewStyle.

Definition dim : lipgloss.Style :=
lipgloss.Foreground (lipgloss.Color "241") lipgloss.NewStyle.

(** [func (m functionCallMessage) Content() string] *)
Definition functionCallMessage_Content (message : string) : string :=
Render badge " Function Call " ++ " " ++ Render dim message.

(** [func (m answerMessage) Content() string] *)
Definition answerMessage_Content (message : string) : string :=
Render badge " Agent " ++ " " ++ message.

(** [func (m reasoningMessage) Content() string] *)
Definition reasoningMessage_Content (message : string) : string :=
Render badge " Reasoning " ++ " " ++ Render dim message.

(** The goroutine of [ask]: what it sends to the program for the
  results the agent yields. *)
Definition ask (results : list Result) : list Msg :=
flat_map
  (fun r =>
     match r with
     | MessageResult s => [answerMessage s]
     | ReasoningResult s => [reasoningMessage s]
     | FunctionCallResult s => [functionCallMessage s]
     | OtherResult => []
     end)
  results.

Record model : Type := mkmodel {
viewport : viewport.Model;
messages : list string;
textarea : textarea.Model;
err : option error
}.

Definition set_viewport (v : viewport.Model) (m : model) : model :=
mkmodel v (messages m) (textarea m) (err m).

Definition set_messages (l : list string) (m : model) : model :=
mkmodel (viewport m) l (textarea m) (err m).

Definition set_textarea (t : textarea.Model) (m : model) : model :=
mkmodel (viewport m) (messages m) t (err m).

Definition set_err (e : option error) (m : model) : model :=
mkmodel (viewport m) (messages m) (textarea m) e.

Definition welcome : string :=
"Welcome to ore-no-agent!" ++ Str.nl
++ "Type a message and press Enter to send.".

Definition initialModel : model :=
let ta := textarea_New in
let ta := textarea.set_Placeholder "Send a message..." ta in
let ta := textarea.Focus ta in
let ta := textarea.set_Prompt "┃ " ta in
let ta := textarea.set_CharLimit 280 ta in
let ta := textarea.SetWidth 30 ta in
let ta := textarea.SetHeight 3 ta in
let ta := textarea.set_CursorLine lipgloss.NewStyle ta in
let ta := textarea.set_ShowLineNumbers false ta in
let vp := viewport.New 30 5 in
let vp := viewport.SetContent welcome vp in
let ta := textarea.InsertNewline_SetEnabled false ta in
mkmodel vp [] ta None.

(** [func (m model) Init() tea.Cmd] *)
Definition Init (m : model) : tea.Cmd := tea.Blink.

Definition entryStyle : lipgloss.Style :=
lipgloss.PaddingRight 1
  (lipgloss.PaddingLeft 1
     (lipgloss.PaddingTop 1
        (lipgloss.BorderForeground (lipgloss.Color "241")
           (lipgloss.BorderBottom true
              (lipgloss.BorderStyleNormal lipgloss.NewStyle))))).

(** The loop of [render]: the string built from the messages at a
  given viewport width. *)
Definition renderText (msgs : list string) (w : Z) : string :=
fold_left
  (fun s message =>
     s ++ Render entryStyle
            (Render (lipgloss.Width w lipgloss.NewStyle) message))
  msgs EmptyString.

(** [func (m *model) render()] *)
Definition render (m : model) : model :=
set_viewport
  (viewport.SetContent
     (renderText (messages m) (viewport.Width (viewport m)))
     (viewport m))
  m.

Definition you : string :=
Render (lipgloss.Background (lipgloss.Color "5") lipgloss.NewStyle)
  " You ".

(** An agent message appended, rendered and scrolled into view. *)
Definition appendAgent (content : string) (m : model) : model :=
let m := set_messages (messages m ++ [content]) m in
let m := render m in
set_viewport (viewport.GotoBottom (viewport m)) m.

(** [func (m model) Update(msg tea.Msg) (tea.Model, tea.Cmd)], with
  the effects of the step on the outside world. *)
Definition Update (m : model) (msg : Msg)
: model * tea.Cmd * list Effect :=
let '(ta, tiCmd) := textarea_Update (textarea m) msg in
let m := set_textarea ta m in
let '(vp, vpCmd) := viewport_Update (viewport m) msg in
let m := set_viewport vp m in
match msg with
| WindowSizeMsg Width Height =>
    let m := set_viewport (viewport.set_Width Width (viewport m)) m in
    let m := set_textarea (textarea.SetWidth Width (textarea m)) m in
    let m :=
      set_viewport
        (viewport.set_Height
           (Height - textarea.Height (textarea m) - lipgloss.Height gap)
           (viewport m))
        m in
    let m := if (0 <? Z.of_nat (List.length (messages m)))
             then render m else m in
    let m := set_viewport (viewport.GotoBottom (viewport m)) m in
    (m, tea.Batch tiCmd vpCmd, [])
| answerMessage s =>
    (appendAgent (answerMessage_Content s) m, tea.CmdNil, [])
| reasoningMessage s =>
    (appendAgent (reasoningMessage_Content s) m, tea.CmdNil, [])
| functionCallMessage s =>
    (appendAgent (functionCallMessage_Content s) m, tea.CmdNil, [])
| KeyMsg k =>
    match tea.Type_ k with
    | tea.KeyCtrlJ =>
        let m :=
          set_textarea
            (textarea.InsertString StringWidth Str.nl (textarea m)) m in
        (m, tea.Batch tiCmd vpCmd, [])
    | tea.KeyCtrlC | tea.KeyEsc =>
        (m, tea.Quit, [Println (textarea.Value (textarea m))])
    | tea.KeyEnter =>
        let message := textarea.Value (textarea m) in
        let m := set_messages (messages m ++ [you ++ " " ++ message]) m in
        let m := render m in
        let m := set_textarea (textarea.Reset (textarea m)) m in
        let m := set_viewport (viewport.GotoBottom (viewport m)) m in
        (m, tea.Batch tiCmd vpCmd, [GoAsk message])
    | _ => (m, tea.Batch tiCmd vpCmd, [])
    end
| errMsg e => (set_err (Some e) m, tea.CmdNil, [])
| otherMsg _ => (m, tea.Batch tiCmd vpCmd, [])
end.

(** [func (m model) View() string] *)
Definition View (m : model) : string :=
viewport_View (viewport m) ++ gap ++ textarea_View (textarea m).

(** The event loop: the messages delivered one after the other. *)
Definition step (m : model) (msg : Msg) : model := fst (fst (Update m msg)).

Definition run (m : model) (msgs : list Msg) : model :=
fold_left step msgs m.

(** The questions handed to [ask] along a run, oldest first. *)
Fixpoint asked (m : model) (msgs : list Msg) : list string :=
match msgs with
| [] => []
| msg :: rest =>
    flat_map (fun e => match e with GoAsk q => [q] | Println _ => [] end)
      (snd (Update m msg))
    ++ asked (step m msg) rest
end.

(** The transcript entry a message stands for, given the model it is
  delivered to: none for resizes, scrolling and plain keystrokes. *)
Definition entryOf (m : model) (msg : Msg) : list Entry :=
match msg with
| answerMessage s => [mkEntry AgentAnswer s]
| reasoningMessage s => [mkEntry AgentReasoning s]
| functionCallMessage s => [mkEntry AgentFunctionCall s]
| KeyMsg k =>
    match tea.Type_ k with
    | tea.KeyEnter =>
        [mkEntry User
           (textarea.Value (fst (textarea_Update (textarea m) msg)))]
    | _ => []
    end
| _ => []
end.

Fixpoint entries (m : model) (msgs : list Msg) : list Entry :=
match msgs with
| [] => []
| msg :: rest => entryOf m msg ++ entries (step m msg) rest
end.

(** How the program writes an entry into [messages]. *)
Definition show (e : Entry) : string :=
match role e with
| User => you ++ " " ++ text e
| AgentAnswer => answerMessage_Content (text e)
| AgentReasoning => reasoningMessage_Content (text e)
| AgentFunctionCall => functionCallMessage_Content (text e)
end.

(** The width of the viewport set, as a resize does. *)
Definition atWidth (w : Z) (m : model) : model :=
set_viewport (viewport.set_Width w (viewport m)) m.

End WithBubbles.
End Part000.

(** * The program, single-file variant (part_001) *)

Module Part001.
Section WithBubbles.
Context {B : Bubbles}.

(** [const gap = "\n\n"] *)
Definition gap : string := Str.nl ++ Str.nl.

(** The goroutine of [ask]; this variant ends every text with a
  newline. *)
Definition ask (results : list Result) : list Msg :=
flat_map
  (fun r =>
     match r with
     | MessageResult s => [answerMessage (s ++ Str.nl)]
     | ReasoningResult s => [reasoningMessage (s ++ Str.nl)]
     | FunctionCallResult s => [functionCallMessage (s ++ Str.nl)]
     | OtherResult => []
     end)
  results.

Record model : Type := mkmodel {
viewport : viewport.Model;
messages : list string;
textarea : textarea.Model;
senderStyle : lipgloss.Style;
agentStyle : lipgloss.Style;
err : option error
}.

Definition set_viewport (v : viewport.Model) (m : model) : model :=
mkmodel v (messages m) (textarea m) (senderStyle m) (agentStyle m)
  (err m).

Definition set_messages (l : list string) (m : model) : model :=
mkmodel (viewport m) l (textarea m) (senderStyle m) (agentStyle m)
  (err m).

Definition set_textarea (t : textarea.Model) (m : model) : model :=
mkmodel (viewport m) (messages m) t (senderStyle m) (agentStyle m)
  (err m).

Definition set_err (e : option error) (m : model) : model :=
mkmodel (viewport m) (messages m) (textarea m) (senderStyle m)
  (agentStyle m) e.

Definition welcome : string :=
"Welcome to ore-no-agent!" ++ Str.nl
++ "Type a message and press Enter to send.".

Definition initialModel : model :=
let ta := textarea_New in
let ta := textarea.set_Placeholder "Send a message..." ta in
let ta := textarea.Focus ta in
let ta := textarea.set_Prompt "┃ " ta in
let ta := textarea.set_CharLimit 280 ta in
let ta := textarea.SetWidth 30 ta in
let ta := textarea.SetHeight 3 ta in
let ta := textarea.set_CursorLine lipgloss.NewStyle ta in
let ta := textarea.set_ShowLineNumbers false ta in
let vp := viewport.New 30 5 in
let vp := viewport.SetContent welcome vp in
let ta := textarea.InsertNewline_SetEnabled false ta in
mkmodel vp [] ta
  (lipgloss.Background (lipgloss.Color "5") lipgloss.NewStyle)
  (lipgloss.Background (lipgloss.Color "2") lipgloss.NewStyle)
  None.

(** [func (m model) Init() tea.Cmd] *)
Definition Init (m : model) : tea.Cmd := tea.Blink.

(** The text this variant puts on display for the messages at a given
  viewport width:
  [lipgloss.NewStyle().Width(w).Render(strings.Join(msgs, "\n"))]. *)
Definition renderText (msgs : list string) (w : Z) : string :=
Render (lipgloss.Width w lipgloss.NewStyle) (Str.Join msgs Str.nl).

(** The statement every branch of [Update] repeats after changing the
  messages: [m.viewport.SetContent(...)] of the text above. *)
Definition render (m : model) : model :=
set_viewport
  (viewport.SetContent
     (renderText (messages m) (viewport.Width (viewport m)))
     (viewport m))
  m.

(** An agent message: its label and its text appended, rendered and
  scrolled into view. *)
Definition appendAgent (label message : string) (m : model) : model :=
let m :=
  set_messages (messages m ++ [Render (agentStyle m) label; message]) m in
let m := render m in
set_viewport (viewport.GotoBottom (viewport m)) m.

(** [func (m model) Update(msg tea.Msg) (tea.Model, tea.Cmd)], with
  the effects of the step on the outside world. *)
Definition Update (m : model) (msg : Msg)
: model * tea.Cmd * list Effect :=
let '(ta, tiCmd) := textarea_Update (textarea m) msg in
let m := set_textarea ta m in
let '(vp, vpCmd) := viewport_Update (viewport m) msg in
let m := set_viewport vp m in
match msg with
| WindowSizeMsg Width Height =>
    let m := set_viewport (viewport.set_Width Width (viewport m)) m in
    let m := set_textarea (textarea.SetWidth Width (textarea m)) m in
    let m :=
      set_viewport
        (viewport.set_Height
           (Height - textarea.Height (textarea m) - lipgloss.Height gap)
           (viewport m))
        m in
    let m := if (0 <? Z.of_nat (List.length (messages m)))
             then render m else m in
    let m := set_viewport (viewport.GotoBottom (viewport m)) m in
    (m, tea.Batch tiCmd vpCmd, [])
| answerMessage s => (appendAgent "Agent" s m, tea.CmdNil, [])
| reasoningMessage s => (appendAgent "Reasoning" s m, tea.CmdNil, [])
| functionCallMessage s =>
    (appendAgent "Function Call" s m, tea.CmdNil, [])
| KeyMsg k =>
    match tea.Type_ k with
    | tea.KeyCtrlJ =>
        let m :=
          set_textarea
            (textarea.InsertString StringWidth Str.nl (textarea m)) m in
        (m, tea.Batch tiCmd vpCmd, [])
    | tea.KeyCtrlC | tea.KeyEsc =>
        (m, tea.Quit, [Println (textarea.Value (textarea m))])
    | tea.KeyEnter =>
        let message := textarea.Value (textarea m) ++ Str.nl in
        let m :=
          set_messages
            (messages m ++ [Render (senderStyle m) "You:"; message]) m in
        let m := render m in
        let m := set_textarea (textarea.Reset (textarea m)) m in
        let m := set_viewport (viewport.GotoBottom (viewport m)) m in
        (m, tea.Batch tiCmd vpCmd, [GoAsk message])
    | _ => (m, tea.Batch tiCmd vpCmd, [])
    end
| errMsg e => (set_err (Some e) m, tea.CmdNil, [])
| otherMsg _ => (m, tea.Batch tiCmd vpCmd, [])
end.

(** [func (m model) View() string] *)
Definition View (m : model) : string :=
viewport_View (viewport m) ++ gap ++ textarea_View (textarea m).

(** The event loop: the messages delivered one after the other. *)
Definition step (m : model) (msg : Msg) : model := fst (fst (Update m msg)).

Definition run (m : model) (msgs : list Msg) : model :=
fold_left step msgs m.

(** The questions handed to [ask] along a run, oldest first. *)
Fixpoint asked (m : model) (msgs : list Msg) : list string :=
match msgs with
| [] => []
| msg :: rest =>
    flat_map (fun e => match e with GoAsk q => [q] | Println _ => [] end)
      (snd (Update m msg))
    ++ asked (step m msg) rest
end.

(** The transcript entry a message stands for, given the model it is
  delivered to; a user entry's text ends with the newline this
  variant adds. *)
Definition entryOf (m : model) (msg : Msg) : list Entry :=
match msg with
| answerMessage s => [mkEntry AgentAnswer s]
| reasoningMessage s => [mkEntry AgentReasoning s]
| functionCallMessage s => [mkEntry AgentFunctionCall s]
| KeyMsg k =>
    match tea.Type_ k with
    | tea.KeyEnter =>
        [mkEntry User
           (textarea.Value (fst (textarea_Update (textarea m) msg))
            ++ Str.nl)]
    | _ => []
    end
| _ => []
end.

Fixpoint entries (m : model) (msgs : list Msg) : list Entry :=
match msgs with
| [] => []
| msg :: rest => entryOf m msg ++ entries (step m msg) rest
end.

(** How the program writes an entry into [messages]: a label string
  and a text string. *)
Definition show (m : model) (e : Entry) : list string :=
match role e with
| User => [Render (senderStyle m) "You:"; text e]
| AgentAnswer => [Render (agentStyle m) "Agent"; text e]
| AgentReasoning => [Render (agentStyle m) "Reasoning"; text e]
| AgentFunctionCall => [Render (agentStyle m) "Function Call"; text e]
end.

(** The width of the viewport set, as a resize does. *)
Definition atWidth (w : Z) (m : model) : model :=
set_viewport (viewport.set_Width w (viewport m)) m.

End WithBubbles.
End Part001.

(** ** Counting the messages of a run *)

Definition isSubmit (msg : Msg) : bool :=
  match msg with
  | KeyMsg k => match tea.Type_ k with tea.KeyEnter => true | _ => false end
  | _ => false
  end.

Definition isAgentEvent (msg : Msg) : bool :=
  match msg with
  | answerMessage _ | reasoningMessage _ | functionCallMessage _ => true
  | _ => false
  end.

Definition count (p : Msg -> bool) (msgs : list Msg) : nat :=
  List.length (filter p msgs).

(** ** Reading a run *)

(** The entry an agent event stands for, whatever the model. *)
Definition agentEntry (msg : Msg) : list Entry :=
  match msg with
  | answerMessage s => [mkEntry AgentAnswer s]
  | reasoningMessage s => [mkEntry AgentReasoning s]
  | functionCallMessage s => [mkEntry AgentFunctionCall s]
  | _ => []
  end.

(** The entry a result of the agent ends up as in part_000: its text as
    it is; a result of another type is dropped. *)
Definition resultEntry000 (r : Result) : list Entry :=
  match r with
  | MessageResult s => [mkEntry AgentAnswer s]
  | ReasoningResult s => [mkEntry AgentReasoning s]
  | FunctionCallResult s => [mkEntry AgentFunctionCall s]
  | OtherResult => []
  end.

(** The same in part_001: its text and a newline. *)
Definition resultEntry001 (r : Result) : list Entry :=
  match r with
  | MessageResult s => [mkEntry AgentAnswer (s ++ Str.nl)]
  | ReasoningResult s => [mkEntry AgentReasoning (s ++ Str.nl)]
  | FunctionCallResult s => [mkEntry AgentFunctionCall (s ++ Str.nl)]
  | OtherResult => []
  end.

(** The keys that end the program. *)
Definition isQuit (msg : Msg) : bool :=
  match msg with
  | KeyMsg k =>
      match tea.Type_ k with
      | tea.KeyCtrlC | tea.KeyEsc => true
      | _ => false
      end
  | _ => false
  end.

(** The last error among the messages, [e0] when there is none. *)
Fixpoint lastErr (e0 : option error) (msgs : list Msg) : option error :=
  match msgs with
  | [] => e0
  | errMsg e :: rest => lastErr (Some e) rest
  | _ :: rest => lastErr e0 rest
  end.

(** The lines a text is shown as by [viewport.SetContent]. *)
Definition shownLines (s : string) : list string :=
  Str.splitLines (Str.normalizeLineEndings s).

(** ** A terminal to run the program on

    Plain rendering (no colours, no wrapping) and a keyboard that knows
    printable keys only: typed runes go in at the cursor as
    [InsertString] puts them, the width of a row being its cells. *)

Definition plainBubbles : Bubbles := {|
  Render := fun _ s => s;
  textarea_New :=
    textarea.mkModel "" "> " 0 true lipgloss.NewStyle true false 40 6 "" 0;
  textarea_Update := fun m msg =>
    match msg with
    | KeyMsg k =>
        match tea.Type_ k with
        | tea.KeyRunes =>
            (textarea.InsertString Str.cells (tea.Runes k) m, tea.CmdNil)
        | _ => (m, tea.CmdNil)
        end
    | _ => (m, tea.CmdNil)
    end;
  textarea_View := fun m => textarea.Prompt m ++ textarea.value m;
  viewport_Update := fun m _ => (m, tea.CmdNil);
  viewport_View := fun m => viewport.content m;
  StringWidth := Str.cells
|}.


(** The letter [è] as one character of two bytes (U+00E8). *)
Definition eGrave : string :=
  String (ascii_of_nat 195) (String (ascii_of_nat 168) "").

Definition key (t : tea.KeyType) : Msg := KeyMsg (tea.mkKey t "" false).
Definition type (s : string) : Msg := KeyMsg (tea.mkKey tea.KeyRunes s false).

(** * encoding/json, as far as the tool handlers use it

    A model of [json.Unmarshal] into a struct with one string field:
    the grammar the decoder accepts, the decoding of string literals and
    the matching of object keys to the field name. *)

Module Json.

Inductive Value : Type :=
| Null
| Bool (b : bool)
| Number (literal : string)
| Str (s : string)
| Array (elems : list Value)
| Object (members : list (string * Value)).

(** [*json.SyntaxError]: why a text is not JSON. *)
Inductive SyntaxError : Type :=
| unexpectedEnd
| invalidCharacter (c : ascii)
| exceededMaxDepth.

(** Its [Error()].  For an invalid character Go's text goes on to say
    what the decoder was reading; the model's stops after the
    character. *)
Definition syntaxMessage (e : SyntaxError) : string :=
  match e with
  | unexpectedEnd => "unexpected end of JSON input"
  | invalidCharacter c => "invalid character '" ++ String c "'"
  | exceededMaxDepth => "exceeded max depth"
  end.

Definition Parse (A : Type) : Type := (SyntaxError + A * string)%type.

Definition code (c : ascii) : Z := Z.of_nat (nat_of_ascii c).
Definition chr (n : Z) : ascii := ascii_of_nat (Z.to_nat n).

Definition isSpace (c : ascii) : bool :=
  (code c =? 32) || (code c =? 9) || (code c =? 13) || (code c =? 10).

Definition isDigit (c : ascii) : bool :=
  (48 <=? code c) && (code c <=? 57).

Fixpoint skipSpace (s : string) : string :=
  match s with
  | String c rest => if isSpace c then skipSpace rest else s
  | EmptyString => s
  end.

(** A run of digits, at least one. *)
Fixpoint digitsFrom (s : string) : string * string :=
  match s with
  | String c rest =>
      if isDigit c
      then let '(d, r) := digitsFrom rest in (String c d, r)
      else (EmptyString, s)
  | EmptyString => (EmptyString, s)
  end.

Definition digits1 (s : string) : Parse string :=
  match s with
  | EmptyString => inl unexpectedEnd
  | String c _ =>
      if isDigit c then inr (digitsFrom s) else inl (invalidCharacter c)
  end.

(** A number literal: an optional minus sign; a zero, or a digit from
    1 to 9 and any digits; an optional fraction (a point and digits);
    an optional exponent (e or E, an optional sign, digits). *)
Definition number (s : string) : Parse string :=
  let '(sign, s1) :=
    match s with
    | String "-" r => ("-", r)
    | _ => ("", s)
    end in
  let int :=
    match s1 with
    | String "0" r => inr ("0", r)
    | _ => digits1 s1
    end in
  match int with
  | inl e => inl e
  | inr (i, s2) =>
      let frac :=
        match s2 with
        | String "." r =>
            match digits1 r with
            | inl e => inl e
            | inr (d, r') => inr ("." ++ d, r')
            end
        | _ => inr ("", s2)
        end in
      match frac with
      | inl e => inl e
      | inr (f, s3) =>
          match s3 with
          | String c r =>
              if (code c =? 101) || (code c =? 69) then
                let '(esign, r1) :=
                  match r with
                  | String "+" r' => ("+", r')
                  | String "-" r' => ("-", r')
                  | _ => ("", r)
                  end in
                match digits1 r1 with
                | inl e => inl e
                | inr (d, r2) =>
                    inr (sign ++ i ++ f ++ String c esign ++ d, r2)
                end
              else inr (sign ++ i ++ f, s3)
          | EmptyString => inr (sign ++ i ++ f, s3)
          end
      end
  end.

(** *** String literals *)

Definition hexVal (c : ascii) : option Z :=
  let n := code c in
  if (48 <=? n) && (n <=? 57) then Some (n - 48)
  else if (97 <=? n) && (n <=? 102) then Some (n - 87)
  else if (65 <=? n) && (n <=? 70) then Some (n - 55)
  else None.

(** The four hex digits after [\u]. *)
Definition getu4 (s : string) : option (Z * string) :=
  match s with
  | String a (String b (String c (String d rest))) =>
      match hexVal a, hexVal b, hexVal c, hexVal d with
      | Some x, Some y, Some z, Some w =>
          Some (x * 4096 + y * 256 + z * 16 + w, rest)
      | _, _, _, _ => None
      end
  | _ => None
  end.

(** Why the four characters after [\u] are no hex digits: the first
    that is none, or the end of the input before it. *)
Fixpoint badEscape (n : nat) (s : string) : SyntaxError :=
  match n, s with
  | S n', String c rest =>
      match hexVal c with
      | Some _ => badEscape n' rest
      | None => invalidCharacter c
      end
  | _, String c _ => invalidCharacter c
  | _, EmptyString => unexpectedEnd
  end.

Definition replacementChar : Z := 65533.

(** [utf8.EncodeRune] *)
Definition encodeRune (r : Z) : string :=
  let r := if (r <? 0) || (1114111 <? r)
              || ((55296 <=? r) && (r <=? 57343))
           then replacementChar else r in
  if r <? 128 then String (chr r) ""
  else if r <? 2048 then
    String (chr (192 + r / 64)) (String (chr (128 + r mod 64)) "")
  else if r <? 65536 then
    String (chr (224 + r / 4096))
      (String (chr (128 + (r / 64) mod 64))
         (String (chr (128 + r mod 64)) ""))
  else
    String (chr (240 + r / 262144))
      (String (chr (128 + (r / 4096) mod 64))
         (String (chr (128 + (r / 64) mod 64))
            (String (chr (128 + r mod 64)) ""))).

Definition isCont (c : ascii) : bool :=
  (128 <=? code c) && (code c <=? 191).

Definition inRange (lo hi : Z) (c : ascii) : bool :=
  (lo <=? code c) && (code c <=? hi).

(** [utf8.DecodeRuneInString]: the rune at the head of a string that
    starts with the byte [c >= 0x80], and what follows it; an invalid
    or truncated sequence is one byte of [replacementChar]. *)
Definition decodeRune (c : ascii) (rest : string) : Z * string :=
  let bad := (replacementChar, rest) in
  let n := code c in
  let two :=
    match rest with
    | String c1 r1 =>
        if isCont c1 then ((n - 192) * 64 + (code c1 - 128), r1) else bad
    | _ => bad
    end in
  let three (lo hi : Z) :=
    match rest with
    | String c1 (String c2 r2) =>
        if inRange lo hi c1 && isCont c2
        then ((n - 224) * 4096 + (code c1 - 128) * 64 + (code c2 - 128), r2)
        else bad
    | _ => bad
    end in
  let four (lo hi : Z) :=
    match rest with
    | String c1 (String c2 (String c3 r3)) =>
        if inRange lo hi c1 && isCont c2 && isCont c3
        then ((n - 240) * 262144 + (code c1 - 128) * 4096
              + (code c2 - 128) * 64 + (code c3 - 128), r3)
        else bad
    | _ => bad
    end in
  if (194 <=? n) && (n <=? 223) then two
  else if n =? 224 then three 160 191
  else if n =? 237 then three 128 159
  else if (225 <=? n) && (n <=? 239) then three 128 191
  else if n =? 240 then four 144 191
  else if (241 <=? n) && (n <=? 243) then four 128 191
  else if n =? 244 then four 128 143
  else bad.

Definition isSurrogate (r : Z) : bool := (55296 <=? r) && (r <? 57344).

(** [utf16.DecodeRune] *)
Definition decodeSurrogates (r1 r2 : Z) : Z :=
  if (55296 <=? r1) && (r1 <? 56320) && (56320 <=? r2) && (r2 <? 57344)
  then (r1 - 55296) * 1024 + (r2 - 56320) + 65536
  else replacementChar.

(** The body of a string literal, after its opening quote: the decoded
    text and what follows the closing quote. *)
Fixpoint stringBody (fuel : nat) (s : string) : Parse string :=
  match fuel with
  | O => inl unexpectedEnd
  | S fuel =>
      match s with
      | EmptyString => inl unexpectedEnd
      | String c rest =>
          let cons (t : string) (r : string) :=
            match stringBody fuel r with
            | inl e => inl e
            | inr (body, r') => inr (t ++ body, r')
            end in
          if code c =? 34 then inr (EmptyString, rest)
          else if code c <? 32 then inl (invalidCharacter c)
          else if code c =? 92 then
            match rest with
            | EmptyString => inl unexpectedEnd
            | String e rest' =>
                let n := code e in
                if (n =? 34) || (n =? 92) || (n =? 47)
                then cons (String e "") rest'
                else if n =? 98 then cons (String (chr 8) "") rest'
                else if n =? 102 then cons (String (chr 12) "") rest'
                else if n =? 110 then cons (String (chr 10) "") rest'
                else if n =? 114 then cons (String (chr 13) "") rest'
                else if n =? 116 then cons (String (chr 9) "") rest'
                else if n =? 117 then
                  match getu4 rest' with
                  | None => inl (badEscape 4 rest')
                  | Some (rr, r1) =>
                      if isSurrogate rr then
                        match r1 with
                        | String b (String u r2) =>
                            if (code b =? 92) && (code u =? 117) then
                              match getu4 r2 with
                              | Some (rr1, r3) =>
                                  if decodeSurrogates rr rr1
                                     =? replacementChar
                                  then cons (encodeRune replacementChar) r1
                                  else cons (encodeRune
                                               (decodeSurrogates rr rr1)) r3
                              | None => cons (encodeRune replacementChar) r1
                              end
                            else cons (encodeRune replacementChar) r1
                        | _ => cons (encodeRune replacementChar) r1
                        end
                      else cons (encodeRune rr) r1
                  end
                else inl (invalidCharacter e)
            end
          else if code c <? 128 then cons (String c "") rest
          else let '(r, rest') := decodeRune c rest in
               cons (encodeRune r) rest'
      end
  end.

Definition maxNestingDepth : Z := 10000.

(** A keyword literal ([true], [false], [null]). *)
Fixpoint literal (word : string) (s : string) : Parse unit :=
  match word with
  | EmptyString => inr (tt, s)
  | String w word' =>
      match s with
      | EmptyString => inl unexpectedEnd
      | String c rest =>
          if Ascii.eqb c w then literal word' rest
          else inl (invalidCharacter c)
      end
  end.

(** One value, after optional white space; [elements] and [members]
    read the rest of an array and of an object.  Two calls in a row
    consume input, so a fuel of twice the input's length is never used
    up. *)
Fixpoint value (fuel : nat) (depth : Z) (s : string) {struct fuel}
  : Parse Value :=
  match fuel with
  | O => inl unexpectedEnd
  | S fuel =>
      match skipSpace s with
      | EmptyString => inl unexpectedEnd
      | String c rest =>
          let n := code c in
          if n =? 123 then
            if maxNestingDepth <? depth + 1 then inl exceededMaxDepth
            else
              match skipSpace rest with
              | String "}" r => inr (Object [], r)
              | _ => members fuel (depth + 1) rest []
              end
          else if n =? 91 then
            if maxNestingDepth <? depth + 1 then inl exceededMaxDepth
            else
              match skipSpace rest with
              | String "]" r => inr (Array [], r)
              | _ => elements fuel (depth + 1) rest []
              end
          else if n =? 34 then
            match stringBody (String.length rest) rest with
            | inl e => inl e
            | inr (t, r) => inr (Str t, r)
            end
          else if n =? 116 then
            match literal "rue" rest with
            | inl e => inl e
            | inr (_, r) => inr (Bool true, r)
            end
          else if n =? 102 then
            match literal "alse" rest with
            | inl e => inl e
            | inr (_, r) => inr (Bool false, r)
            end
          else if n =? 110 then
            match literal "ull" rest with
            | inl e => inl e
            | inr (_, r) => inr (Null, r)
            end
          else if (n =? 45) || isDigit c then
            match number (String c rest) with
            | inl e => inl e
            | inr (t, r) => inr (Number t, r)
            end
          else inl (invalidCharacter c)
      end
  end

with elements (fuel : nat) (depth : Z) (s : string) (acc : list Value)
       {struct fuel} : Parse Value :=
  match fuel with
  | O => inl unexpectedEnd
  | S fuel =>
      match value fuel depth s with
      | inl e => inl e
      | inr (v, r) =>
          match skipSpace r with
          | String "," r' => elements fuel depth r' (acc ++ [v])
          | String "]" r' => inr (Array (acc ++ [v]), r')
          | String c _ => inl (invalidCharacter c)
          | EmptyString => inl unexpectedEnd
          end
      end
  end

with members (fuel : nat) (depth : Z) (s : string)
       (acc : list (string * Value)) {struct fuel} : Parse Value :=
  match fuel with
  | O => inl unexpectedEnd
  | S fuel =>
      match skipSpace s with
      | String q r0 =>
          if negb (code q =? 34) then inl (invalidCharacter q)
          else
          match stringBody (String.length r0) r0 with
          | inl e => inl e
          | inr (k, r1) =>
              match skipSpace r1 with
              | String ":" r2 =>
                  match value fuel depth r2 with
                  | inl e => inl e
                  | inr (v, r3) =>
                      match skipSpace r3 with
                      | String "," r4 =>
                          members fuel depth r4 (acc ++ [(k, v)])
                      | String "}" r4 => inr (Object (acc ++ [(k, v)]), r4)
                      | String c _ => inl (invalidCharacter c)
                      | EmptyString => inl unexpectedEnd
                      end
                  end
              | String c _ => inl (invalidCharacter c)
              | EmptyString => inl unexpectedEnd
              end
          end
      | EmptyString => inl unexpectedEnd
      end
  end.

(** A whole document: one value and nothing but white space after it. *)
Definition parse (s : string) : SyntaxError + Value :=
  match value (S (2 * String.length s)) 0 s with
  | inl e => inl e
  | inr (v, r) =>
      match skipSpace r with
      | EmptyString => inr v
      | String c _ => inl (invalidCharacter c)
      end
  end.

Definition valid (s : string) : bool :=
  match parse s with inl _ => false | inr _ => true end.

(** *** Decoding into [struct { Name string }] *)

Definition isLower (c : ascii) : bool :=
  (97 <=? code c) && (code c <=? 122).

(** The folded form of a name that keys and field names are compared
    by.  ASCII letters go to upper case; the Kelvin sign (U+212A) and
    the long s (U+017F) fold to [K] and [S]; no other character folds
    to an ASCII one, and those are kept as they are. *)
Fixpoint foldName (s : string) : string :=
  match s with
  | EmptyString => EmptyString
  | String c rest =>
      if isLower c then String (chr (code c - 32)) (foldName rest)
      else
        match rest with
        | String c1 rest1 =>
            if (code c =? 197) && (code c1 =? 191)
            then String "S" (foldName rest1)
            else
              match rest1 with
              | String c2 rest2 =>
                  if (code c =? 226) && (code c1 =? 132) && (code c2 =? 170)
                  then String "K" (foldName rest2)
                  else String c (foldName rest)
              | EmptyString => String c (foldName rest)
              end
        | EmptyString => String c (foldName rest)
        end
  end.

(** An object key names the field when the two fold to the same. *)
Definition matches (field key : string) : bool :=
  String.eqb (foldName key) (foldName field).

(** The JSON kind in the decoder's type errors. *)
Definition kind (v : Value) : string :=
  match v with
  | Null => "null"
  | Bool _ => "bool"
  | Number _ => "number"
  | Str _ => "string"
  | Array _ => "array"
  | Object _ => "object"
  end.

Definition fieldTypeError (v : Value) (field : string) : error :=
  mkError ("json: cannot unmarshal " ++ kind v
           ++ " into Go struct field ." ++ field ++ " of type string").

Definition structTypeError (v : Value) (field : string) : error :=
  mkError ("json: cannot unmarshal " ++ kind v
           ++ " into Go value of type struct { " ++ field ++ " string }").

(** The decoder keeps the first error and goes on. *)
Definition saveError (saved : option error) (e : error) : option error :=
  match saved with Some _ => saved | None => Some e end.

(** The members of an object stored into the field, in order: a string
    sets it, [null] leaves it, anything else is a type error; other
    keys are skipped. *)
Fixpoint object (field : string) (ms : list (string * Value))
  (param : string) (saved : option error) : string * option error :=
  match ms with
  | [] => (param, saved)
  | (k, v) :: rest =>
      if matches field k then
        match v with
        | Str t => object field rest t saved
        | Null => object field rest param saved
        | _ => object field rest param
                 (saveError saved (fieldTypeError v field))
        end
      else object field rest param saved
  end.

(** [json.Unmarshal([]byte(data), &param)] for a [param] that is a
    struct with the one string field [field]: the field's value
    afterwards, and the error returned.  Invalid input is rejected
    before anything is stored. *)
Definition Unmarshal (data : string) (field : string) (param : string)
  : string * option error :=
  match parse data with
  | inl e => (param, Some (mkError (syntaxMessage e)))
  | inr Null => (param, None)
  | inr (Object ms) => object field ms param None
  | inr v => (param, Some (structTypeError v field))
  end.

(** The values the decoder takes for a struct: an object, which it
    stores, and [null], which it skips.  Any other is a type error. *)
Definition decodable (v : Value) : bool :=
  match v with
  | Object _ | Null => true
  | _ => false
  end.

(** The members have one for the field. *)
Definition mentions (field : string) (ms : list (string * Value)) : bool :=
  existsb (fun kv => matches field (fst kv)) ms.

(** The double quote, and an object with one string member written
    out: [{"key":"value"}]. *)
Definition quote : string := String (chr 34) EmptyString.

Definition object1 (key value : string) : string :=
  "{" ++ quote ++ key ++ quote ++ ":" ++ quote ++ value ++ quote ++ "}".

End Json.

(** * package time, as far as [currentTime] uses it *)

Module Time.

(** An instant with its location: seconds since the Unix epoch, the
    nanoseconds within the second, and the location's offset east of
    UTC (in seconds) at that instant. *)
Record Time : Type := mkTime { sec : Z; nsec : Z; offset : Z }.

Definition digit (n : Z) : ascii := Json.chr (48 + n).

(** [n] decimal digits of [x], most significant first. *)
Fixpoint pad (n : nat) (x : Z) : string :=
  match n with
  | O => EmptyString
  | S n' => String (digit ((x / 10 ^ Z.of_nat n') mod 10)) (pad n' x)
  end.

(** The decimal digits of [u > 0], without leading zeros. *)
Fixpoint decimal (fuel : nat) (u : Z) : string :=
  match fuel with
  | O => EmptyString
  | S fuel =>
      (if u <? 10 then EmptyString else decimal fuel (u / 10))
      ++ String (digit (u mod 10)) EmptyString
  end.

(** [appendInt(b, x, width)]: a sign for a negative [x], then its
    digits, zero-padded to at least [width]. *)
Definition appendInt (x : Z) (width : nat) : string :=
  let u := Z.abs x in
  (if x <? 0 then "-" else "")
  ++ (if u <? 10 ^ Z.of_nat width then pad width u
      else decimal (S (Z.to_nat (Z.log2 u))) u).

Definition isLeap (year : Z) : bool :=
  (year mod 4 =? 0) && (negb (year mod 100 =? 0) || (year mod 400 =? 0)).

Definition daysIn (month year : Z) : Z :=
  if month =? 2 then (if isLeap year then 29 else 28)
  else if (month =? 4) || (month =? 6) || (month =? 9) || (month =? 11)
  then 30 else 31.

(** The year of the 400-year era (counted from March), the month and
    the day of the era's day [doe]. *)
Definition civilOfEraDay (doe : Z) : Z * Z * Z :=
  let yoe := (doe - doe / 1460 + doe / 36524 - doe / 146096) / 365 in
  let doy := doe - (365 * yoe + yoe / 4 - yoe / 100) in
  let mp := (5 * doy + 2) / 153 in
  let d := doy - (153 * mp + 2) / 5 + 1 in
  let m := if mp <? 10 then mp + 3 else mp - 9 in
  (yoe, m, d).

(** The era's day of a month and day in the era's year [yoe]. *)
Definition eraDayOfCivil (yoe m d : Z) : Z :=
  let mp := if 2 <? m then m - 3 else m + 9 in
  let doy := (153 * mp + 2) / 5 + d - 1 in
  yoe * 365 + yoe / 4 - yoe / 100 + doy.

(** [t.Date()] of the day [z] days after 1970-01-01, in the proleptic
    Gregorian calendar. *)
Definition civil (z : Z) : Z * Z * Z :=
  let z := z + 719468 in
  let era := z / 146097 in
  let '(yoe, m, d) := civilOfEraDay (z mod 146097) in
  let y := yoe + era * 400 in
  (if m <=? 2 then y + 1 else y, m, d).

(** The day number of a date: days since 1970-01-01. *)
Definition daysFromCivil (y m d : Z) : Z :=
  let y := if m <=? 2 then y - 1 else y in
  (y / 400) * 146097 + eraDayOfCivil (y mod 400) m d - 719468.

(** [t.Format(time.RFC3339)], layout ["2006-01-02T15:04:05Z07:00"]. *)
Definition Format (t : Time) : string :=
  let abs := sec t + offset t in
  let '(year, month, day) := civil (abs / 86400) in
  let clock := abs mod 86400 in
  appendInt year 4 ++ "-" ++ appendInt month 2 ++ "-" ++ appendInt day 2
  ++ "T" ++ appendInt (clock / 3600) 2
  ++ ":" ++ appendInt (clock mod 3600 / 60) 2
  ++ ":" ++ appendInt (clock mod 60) 2
  ++ (if offset t =? 0 then "Z"
      else
        let zone := Z.quot (offset t) 60 in
        (if zone <? 0 then "-" else "+")
        ++ appendInt (Z.abs zone / 60) 2 ++ ":"
        ++ appendInt (Z.abs zone mod 60) 2).

(** *** Reading a timestamp back: [time.Parse(time.RFC3339, s)]

    The strict RFC 3339 reader that [Parse] tries first.  [Format]
    writes nothing but what it accepts. *)

Notation "'let*' x ':=' a 'in' b" :=
  (match a with Some x => b | None => None end)
    (at level 10, x pattern, a at level 100, b at level 200).

Fixpoint digitsAcc (n : nat) (acc : Z) (s : string) : option (Z * string) :=
  match n with
  | O => Some (acc, s)
  | S n' =>
      match s with
      | String c rest =>
          if Json.isDigit c
          then digitsAcc n' (acc * 10 + (Json.code c - 48)) rest
          else None
      | EmptyString => None
      end
  end.

(** [parseUint(s[i:i+n], min, max)] *)
Definition parseUint (n : nat) (min max : Z) (s : string)
  : option (Z * string) :=
  let* (x, rest) := digitsAcc n 0 s in
  if (min <=? x) && (x <=? max) then Some (x, rest) else None.

Definition expect (c : ascii) (s : string) : option string :=
  match s with
  | String d rest => if Ascii.eqb c d then Some rest else None
  | EmptyString => None
  end.

(** The digits of a fractional second, scaled to nanoseconds; digits
    after the ninth are dropped. *)
Fixpoint fraction (scale : nat) (acc : Z) (s : string) : Z * string :=
  match s with
  | String c rest =>
      if Json.isDigit c then
        match scale with
        | O => fraction O acc rest
        | S scale' =>
            fraction scale' (acc + (Json.code c - 48) * 10 ^ Z.of_nat scale')
              rest
        end
      else (acc, s)
  | EmptyString => (acc, s)
  end.

(** What follows the seconds: an optional fraction, then [Z] or an
    offset; [utc] is the date and clock read so far, taken as UTC. *)
Definition fractionAndZone (utc : Z) (s : string) : option Time :=
  let '(ns, s) :=
    match s with
    | String "." (String c rest) =>
        if Json.isDigit c then fraction 9 0 (String c rest) else (0, s)
    | _ => (0, s)
    end in
  match s with
  | String "Z" EmptyString => Some (mkTime utc ns 0)
  | String sign s =>
      let* (hr, s) := parseUint 2 0 23 s in
      let* s := expect ":" s in
      let* (mm, s) := parseUint 2 0 59 s in
      match s with
      | EmptyString =>
          let zoneOffset := (hr * 60 + mm) * 60 in
          if Ascii.eqb sign "-"
          then Some (mkTime (utc + zoneOffset) ns (- zoneOffset))
          else if Ascii.eqb sign "+"
          then Some (mkTime (utc - zoneOffset) ns zoneOffset)
          else None
      | _ => None
      end
  | EmptyString => None
  end.

Definition parseRFC3339 (s : string) : option Time :=
  let* (year, s) := parseUint 4 0 9999 s in
  let* s := expect "-" s in
  let* (month, s) := parseUint 2 1 12 s in
  let* s := expect "-" s in
  let* (day, s) := parseUint 2 1 (daysIn month year) s in
  let* s := expect "T" s in
  let* (hour, s) := parseUint 2 0 23 s in
  let* s := expect ":" s in
  let* (min, s) := parseUint 2 0 59 s in
  let* s := expect ":" s in
  let* (second, s) := parseUint 2 0 59 s in
  fractionAndZone
    (daysFromCivil year month day * 86400 + hour * 3600 + min * 60 + second)
    s.

(** [t.Truncate(time.Second)]: the instant without its nanoseconds. *)
Definition truncateToSecond (t : Time) : Time :=
  mkTime (sec t) 0 (offset t).

(** [t.Year()] *)
Definition Year (t : Time) : Z :=
  fst (fst (civil ((sec t + offset t) / 86400))).

(** *** The calendar, checked day by day

    One era of 146097 days holds every date of 400 years; a day of the
    era is checked to fall in a year of the era, on a day its month
    has, and to be the day its date counts back to. *)
Definition checkEraDay (doe : Z) : bool :=
  let '(yoe, m, d) := civilOfEraDay doe in
  (0 <=? yoe) && (yoe <? 400) && (1 <=? m) && (m <=? 12) && (1 <=? d)
  && (d <=? daysIn m (if m <=? 2 then yoe + 1 else yoe))
  && (eraDayOfCivil yoe m d =? doe).

(** [p] holds of the [n] integers from [z] on. *)
Fixpoint allFrom (n : nat) (z : Z) (p : Z -> bool) : bool :=
  match n with
  | O => true
  | S k => p z && allFrom k (z + 1) p
  end.

End Time.

(** * The tool registry ([tool.go], and the copy inside part_001) *)

Module Registry.

(** One result of the search provider; [Link] is [Link.String()]. *)
Record Hit : Type := mkHit {
  hitTitle : string;
  hitLink : string;
  hitDescription : string
}.

(** [type result struct { Title, Link, Snippet string }] *)
Record result : Type := mkresult {
  Title : string;
  Link : string;
  Snippet : string
}.

(** [*http.Request], as far as the handler touches it. *)
Record Request : Type := mkRequest {
  Method : string;
  URL : string;
  Header : list (string * string)
}.

(** [req.Header.Set(key, value)] *)
Definition Header_Set (key value : string) (req : Request) : Request :=
  mkRequest (Method req) (URL req)
    ((key, value)
       :: filter (fun kv => negb (String.eqb (fst kv) key)) (Header req)).

(** The world outside the process, and the library calls that reach
    it.  A failing call returns its error ([inl]); the value Go
    returns next to a non-nil error is nil. *)
Class World : Type := {
  Now : Time.Time;                                   (* time.Now() *)
  Search : string -> Z -> error + list Hit;          (* web.Search *)
  NewRequest : string -> string -> error + Request;  (* http.NewRequest *)
  Do : Request -> error + Z;                         (* client.Do; a body *)
  ReadAll : Z -> error + string;                     (* io.ReadAll *)
  Marshal : list result -> string                    (* json.Marshal *)
}.

(** How a call of a handler ends. *)
Inductive Outcome : Type :=
| Returned (s : string)
| Panicked (reason : string).

(** The calls a handler makes that reach the network. *)
Inductive Call : Type :=
| Searched (keyword : string) (count : Z)
| Sent (req : Request)
| BodyRead (body : Z).

(** A handler under way: a value to go on with, or the way the call
    has ended, and the network calls made so far. *)
Definition Run (A : Type) : Type := ((A + Outcome) * list Call)%type.

Definition ret {A} (a : A) : Run A := (inl a, []).

Definition bind {A C} (m : Run A) (f : A -> Run C) : Run C :=
  match m with
  | (inl a, t) => let '(r, t') := f a in (r, (t ++ t')%list)
  | (inr o, t) => (inr o, t)
  end.

Definition call (c : Call) : Run unit := (inl tt, [c]).

(** [return s] *)
Definition Return {A} (s : string) : Run A := (inr (Returned s), []).

(** A nil pointer dereferenced. *)
Definition nilDereference : string :=
  "runtime error: invalid memory address or nil pointer dereference".

Definition panic {A} (reason : string) : Run A :=
  (inr (Panicked reason), []).

Definition finish (m : Run string) : Outcome * list Call :=
  match m with
  | (inl s, t) => (Returned s, t)
  | (inr o, t) => (o, t)
  end.

Notation "x <- m ;; k" := (bind m (fun x => k))
  (at level 61, m at next level, right associativity).
Notation "m ;;; k" := (bind m (fun _ => k))
  (at level 61, right associativity).

Section Handlers.
Context {W : World}.

(** [currentTime]'s [Function] *)
Definition currentTime (_ : string) : Outcome * list Call :=
  finish (ret (Time.Format Now)).

(** [webSearch]'s [Function] *)
Definition webSearch (args : string) : Outcome * list Call :=
  finish (
    let '(Keyword, err) := Json.Unmarshal args "Keyword" "" in
    match err with
    | Some e => Return (Error e)
    | None =>
        call (Searched Keyword 10) ;;;
        match Search Keyword 10 with
        | inl e => Return (Error e)
        | inr res =>
            let results :=
              fold_left
                (fun results ddgor =>
                   (results
                    ++ [mkresult (hitTitle ddgor) (hitLink ddgor)
                          (hitDescription ddgor)])%list)
                res [] in
            ret (Marshal results)
        end
    end).

(** [WebReader]'s [Function]; the two copies differ in the
    User-Agent they send. *)
Definition WebReader_as (userAgent : string) (args : string)
  : Outcome * list Call :=
  finish (
    let '(Url, err) := Json.Unmarshal args "Url" "" in
    match err with
    | Some e => Return (Error e)
    | None =>
        (* req, _ := http.NewRequest("GET", param.Url, nil) *)
        let req : option Request :=
          match NewRequest "GET" Url with
          | inr r => Some r
          | inl _ => None
          end in
        (* req.Header.Set("User-Agent", ...) *)
        req <- match req with
               | Some r => ret (Header_Set "User-Agent" userAgent r)
               | None => panic nilDereference
               end ;;
        call (Sent req) ;;;
        match Do req with
        | inl e => Return (Error e)
        | inr body =>
            call (BodyRead body) ;;;
            match ReadAll body with
            | inl e => Return (Error e)
            | inr bodyBytes => ret bodyBytes
            end
        end
    end).

Definition WebReader : string -> Outcome * list Call :=
  WebReader_as
    "Mozilla/5.0 (Macintosh; Intel Mac OS X 10_15_7) AppleWebKit/537.36 (KHTML, like Gecko) Chrome/142.0.0.0 Safari/537.36".

Definition WebReader001 : string -> Outcome * list Call :=
  WebReader_as
    "Mozilla/5.0 (Windows NT 10.0; Win64; x64) AppleWebKit/537.36".

(** The [Parameters] schema of a tool with one string property. *)
Record Schema : Type := mkSchema {
  type_ : string;
  property : string;
  propertyType : string;
  propertyDescription : string;
  required : list string
}.

(** [orenoagent.Tool] *)
Record Tool : Type := mkTool {
  Name : string;
  Description : string;
  Parameters : option Schema;
  Function : string -> Outcome * list Call
}.

Definition currentTimeTool : Tool :=
  mkTool "currentTime"
    "Get the current date and time with timezone in a human-readable format."
    None currentTime.

Definition webSearchTool : Tool :=
  mkTool "webSearch"
    "Get the current date and time with timezone in a human-readable format."
    (Some (mkSchema "object" "keyword" "string" "web search keyword."
             ["keyword"]))
    webSearch.

Definition WebReaderTool (f : string -> Outcome * list Call) : Tool :=
  mkTool "WebReader"
    "Reads and returns the content from the specified URL"
    (Some (mkSchema "object" "url" "string" "URL of the page to retrieve"
             ["url"]))
    f.

(** [var Tools] of [tool.go] *)
Definition Tools : list Tool :=
  [currentTimeTool; webSearchTool; WebReaderTool WebReader].

(** [var tools] of part_001 *)
Definition tools : list Tool :=
  [currentTimeTool; webSearchTool; WebReaderTool WebReader001].

(** The tool registered under a name. *)
Definition lookup (name : string) (ts : list Tool) : option Tool :=
  find (fun t => String.eqb (Name t) name) ts.

End Handlers.

(** Whether a call reached the network at all. *)
Definition offline (t : list Call) : Prop := t = [].

Definition isPanic (o : Outcome) : bool :=
  match o with Panicked _ => true | Returned _ => false end.

(** ** A world to run the handlers in

    No network: the search and every request fail.  [NewRequest]
    refuses what [url.Parse] refuses first, a URL that starts with a
    colon. *)
Definition unplugged : World := {|
  Now := Time.mkTime 1793408523 500000000 32400;
  Search := fun _ _ => inl (mkError "dial tcp: no route to host");
  NewRequest := fun method url =>
    match url with
    | String ":" _ =>
        inl (mkError "parse: missing protocol scheme")
    | _ => inr (mkRequest method url [])
    end;
  Do := fun _ => inl (mkError "dial tcp: no route to host");
  ReadAll := fun _ => inr EmptyString;
  Marshal := fun _ => "[]"
|}.

(** A world with one page, whose body is [hello]. *)
Definition onePage : World := {|
  Now := Time.mkTime 0 0 0;
  Search := fun _ _ => inr [mkHit "a" "http://a.example/" "b"];
  NewRequest := fun method url => inr (mkRequest method url []);
  Do := fun req =>
    if String.eqb (URL req) "http://a.example/" then inr 1
    else inl (mkError "dial tcp: no route to host");
  ReadAll := fun _ => inr "hello";
  Marshal := fun rs =>
    "[" ++ Str.Join (map (fun r => "{" ++ Title r ++ "}") rs) "," ++ "]"
|}.

End Registry.

(** * Properties of the chat view controller *)

(** ** Strings and the input box *)

Ltac by_cases_of_insert :=
  unfold textarea.InsertString;
  repeat match goal with
         | |- context [if ?c then _ else _] => destruct c
         | |- context [match ?l with [] => _ | _ :: _ => _ end] => destruct l
         end;
  reflexivity.


Lemma InsertString_InsertNewline (w : string -> Z) (s : string)
  (m : textarea.Model) :
  textarea.InsertNewline (textarea.InsertString w s m)
  = textarea.InsertNewline m.
Proof. by_cases_of_insert. Qed.

(** The test terminal does what the properties ask of the library. *)
Lemma plainBubbles_enter : EnterLeavesText plainBubbles.
Proof. intros m k Hk _ _. simpl. now rewrite Hk. Qed.

Lemma plainBubbles_keymap : KeyMapKept plainBubbles.
Proof.
  intros m [| | | |k| |]; try reflexivity. simpl.
  destruct (tea.Type_ k); simpl; try reflexivity.
  apply InsertString_InsertNewline.
Qed.


(** ** The viewport *)

Lemma SetContent_Width (s : string) (v : viewport.Model) :
  viewport.Width (viewport.SetContent s v) = viewport.Width v.
Proof.
  unfold viewport.SetContent. simpl.
  now destruct (_ <? _).
Qed.

Lemma SetContent_lines (s : string) (v : viewport.Model) :
  viewport.lines (viewport.SetContent s v)
  = Str.splitLines (Str.normalizeLineEndings s).
Proof.
  unfold viewport.SetContent. simpl.
  now destruct (_ <? _).
Qed.

Lemma SetContent_idempotent (s : string) (v : viewport.Model) :
  viewport.SetContent s (viewport.SetContent s v) = viewport.SetContent s v.
Proof.
  unfold viewport.SetContent, viewport.GotoBottom, viewport.maxYOffset.
  simpl.
  destruct (Z.ltb_spec
              (Z.of_nat (List.length
                           (Str.splitLines (Str.normalizeLineEndings s))) - 1)
              (viewport.YOffset v)) as [Hoff|Hin]; simpl.
  - now destruct (_ <? _).
  - apply Z.ltb_ge in Hin. now rewrite Hin.
Qed.

(** ** The transcript of part_000 *)

Section Transcript000.
Context {B : Bubbles}.
Import Part000.

Lemma render_messages_000 (m : model) : messages (render m) = messages m.
Proof. reflexivity. Qed.

Lemma render_textarea_000 (m : model) : textarea (render m) = textarea m.
Proof. reflexivity. Qed.

(** One step appends what the message stands for, and nothing else. *)
Lemma step_messages_000 (m : model) (msg : Msg) :
  messages (step m msg) = (messages m ++ map show (entryOf m msg))%list.
Proof.
  unfold step, Update, entryOf.
  destruct (textarea_Update (textarea m) msg) as [ta tiCmd].
  destruct (viewport_Update _ msg) as [vp vpCmd].
  destruct msg as [w h|s|s|s|k|e|t]; simpl;
    try (now rewrite app_nil_r); try reflexivity.
  - destruct (0 <? _); simpl; now rewrite app_nil_r.
  - destruct (tea.Type_ k); simpl; try (now rewrite app_nil_r); reflexivity.
Qed.

Lemma run_messages_000 (msgs : list Msg) (m : model) :
  messages (run m msgs) = (messages m ++ map show (entries m msgs))%list.
Proof.
  revert m; induction msgs as [|msg msgs IH]; intros m; simpl.
  - now rewrite app_nil_r.
  - unfold run in *; simpl. rewrite IH, step_messages_000.
    now rewrite map_app, app_assoc.
Qed.

Lemma entryOf_length_000 (m : model) (msg : Msg) :
  List.length (entryOf m msg)
  = ((if isSubmit msg then 1 else 0) + (if isAgentEvent msg then 1 else 0))%nat.
Proof.
  destruct msg as [w h|s|s|s|k|e|t]; simpl; try reflexivity.
  now destruct (tea.Type_ k).
Qed.

Lemma entryOf_users_000 (m : model) (msg : Msg) :
  List.length (filter isUser (entryOf m msg))
  = (if isSubmit msg then 1 else 0)%nat.
Proof.
  destruct msg as [w h|s|s|s|k|e|t]; simpl; try reflexivity.
  now destruct (tea.Type_ k).
Qed.

Lemma entryOf_agents_000 (m : model) (msg : Msg) :
  List.length (filter (fun e => negb (isUser e)) (entryOf m msg))
  = (if isAgentEvent msg then 1 else 0)%nat.
Proof.
  destruct msg as [w h|s|s|s|k|e|t]; simpl; try reflexivity.
  now destruct (tea.Type_ k).
Qed.

Lemma entries_users_000 (msgs : list Msg) (m : model) :
  List.length (filter isUser (entries m msgs)) = count isSubmit msgs.
Proof.
  revert m; induction msgs as [|msg msgs IH]; intros m; [reflexivity|].
  simpl. rewrite filter_app, length_app, IH, entryOf_users_000.
  unfold count; simpl. now destruct (isSubmit msg).
Qed.

Lemma entries_agents_000 (msgs : list Msg) (m : model) :
  List.length (filter (fun e => negb (isUser e)) (entries m msgs))
  = count isAgentEvent msgs.
Proof.
  revert m; induction msgs as [|msg msgs IH]; intros m; [reflexivity|].
  simpl. rewrite filter_app, length_app, IH, entryOf_agents_000.
  unfold count; simpl. now destruct (isAgentEvent msg).
Qed.

Lemma entries_length_000 (msgs : list Msg) (m : model) :
  List.length (entries m msgs)
  = (count isSubmit msgs + count isAgentEvent msgs)%nat.
Proof.
  revert m; induction msgs as [|msg msgs IH]; intros m; [reflexivity|].
  simpl. rewrite length_app, IH, entryOf_length_000.
  unfold count; simpl.
  destruct (isSubmit msg), (isAgentEvent msg); simpl; lia.
Qed.

(** What the Enter key does, whatever the box holds. *)
Lemma Update_enter_000 (m : model) (k : tea.Key) :
  tea.Type_ k = tea.KeyEnter ->
  let ta := fst (textarea_Update (textarea m) (KeyMsg k)) in
  let m' := fst (fst (Update m (KeyMsg k))) in
  messages m' = (messages m ++ [(you ++ " " ++ textarea.Value ta)%string])%list
  /\ textarea.Value (textarea m') = EmptyString
  /\ snd (Update m (KeyMsg k)) = [GoAsk (textarea.Value ta)].
Proof.
  intros Hk. unfold Update.
  destruct (textarea_Update (textarea m) (KeyMsg k)) as [ta tiCmd].
  destruct (viewport_Update _ (KeyMsg k)) as [vp vpCmd].
  rewrite Hk. simpl. repeat split.
Qed.



(** *** Rendering *)

Lemma render_lines_000 (m : model) :
  viewport.lines (viewport (render m))
  = Str.splitLines
      (Str.normalizeLineEndings
         (renderText (messages m) (viewport.Width (viewport m)))).
Proof. unfold render; simpl. apply SetContent_lines. Qed.

Lemma render_idempotent_000 (m : model) : render (render m) = render m.
Proof.
  unfold render; simpl. rewrite SetContent_Width.
  now rewrite SetContent_idempotent.
Qed.

End Transcript000.

(** ** The transcript of part_001 *)

Section Transcript001.
Context {B : Bubbles}.
Import Part001.

Lemma step_styles_001 (m : model) (msg : Msg) :
  senderStyle (step m msg) = senderStyle m
  /\ agentStyle (step m msg) = agentStyle m.
Proof.
  unfold step, Update.
  destruct (textarea_Update (textarea m) msg) as [ta tiCmd].
  destruct (viewport_Update _ msg) as [vp vpCmd].
  destruct msg as [w h|s|s|s|k|e|t]; simpl; try (split; reflexivity).
  - destruct (0 <? _); split; reflexivity.
  - destruct (tea.Type_ k); split; reflexivity.
Qed.

(** One step appends the label and the text of what the message
    stands for, and nothing else. *)
Lemma step_messages_001 (m : model) (msg : Msg) :
  messages (step m msg)
  = (messages m ++ flat_map (show m) (entryOf m msg))%list.
Proof.
  unfold step, Update, entryOf.
  destruct (textarea_Update (textarea m) msg) as [ta tiCmd].
  destruct (viewport_Update _ msg) as [vp vpCmd].
  destruct msg as [w h|s|s|s|k|e|t]; simpl;
    try (now rewrite app_nil_r); try reflexivity.
  - destruct (0 <? _); simpl; now rewrite app_nil_r.
  - destruct (tea.Type_ k); simpl; try (now rewrite app_nil_r); reflexivity.
Qed.

Lemma show_styles_001 (m m' : model) (e : Entry) :
  senderStyle m' = senderStyle m -> agentStyle m' = agentStyle m ->
  show m' e = show m e.
Proof. intros Hs Ha. unfold show. now rewrite Hs, Ha. Qed.

Lemma run_messages_001 (msgs : list Msg) (m : model) :
  messages (run m msgs)
  = (messages m ++ flat_map (show m) (entries m msgs))%list.
Proof.
  revert m; induction msgs as [|msg msgs IH]; intros m; simpl.
  - now rewrite app_nil_r.
  - unfold run in *; simpl. rewrite IH, step_messages_001.
    destruct (step_styles_001 m msg) as [Hs Ha].
    rewrite flat_map_app, <- app_assoc. do 2 f_equal.
    apply flat_map_ext. intros e. now apply show_styles_001.
Qed.

Lemma show_length_001 (m : model) (es : list Entry) :
  List.length (flat_map (show m) es) = (2 * List.length es)%nat.
Proof.
  induction es as [|e es IH]; [reflexivity|].
  simpl flat_map. rewrite length_app, IH.
  unfold show. destruct (role e); simpl; lia.
Qed.

Lemma entryOf_length_001 (m : model) (msg : Msg) :
  List.length (entryOf m msg)
  = ((if isSubmit msg then 1 else 0) + (if isAgentEvent msg then 1 else 0))%nat.
Proof.
  destruct msg as [w h|s|s|s|k|e|t]; simpl; try reflexivity.
  now destruct (tea.Type_ k).
Qed.

Lemma entries_length_001 (msgs : list Msg) (m : model) :
  List.length (entries m msgs)
  = (count isSubmit msgs + count isAgentEvent msgs)%nat.
Proof.
  revert m; induction msgs as [|msg msgs IH]; intros m; [reflexivity|].
  simpl. rewrite length_app, IH, entryOf_length_001.
  unfold count; simpl.
  destruct (isSubmit msg), (isAgentEvent msg); simpl; lia.
Qed.

(** What the Enter key does, whatever the box holds. *)
Lemma Update_enter_001 (m : model) (k : tea.Key) :
  tea.Type_ k = tea.KeyEnter ->
  let ta := fst (textarea_Update (textarea m) (KeyMsg k)) in
  let m' := fst (fst (Update m (KeyMsg k))) in
  messages m'
  = (messages m
     ++ [Render (senderStyle m) "You:";
         (textarea.Value ta ++ Str.nl)%string])%list
  /\ textarea.Value (textarea m') = EmptyString
  /\ snd (Update m (KeyMsg k)) = [GoAsk (textarea.Value ta ++ Str.nl)].
Proof.
  intros Hk. unfold Update.
  destruct (textarea_Update (textarea m) (KeyMsg k)) as [ta tiCmd].
  destruct (viewport_Update _ (KeyMsg k)) as [vp vpCmd].
  rewrite Hk. simpl. repeat split.
Qed.



(** *** Rendering *)

Lemma render_lines_001 (m : model) :
  viewport.lines (viewport (render m))
  = Str.splitLines
      (Str.normalizeLineEndings
         (renderText (messages m) (viewport.Width (viewport m)))).
Proof. unfold render; simpl. apply SetContent_lines. Qed.

Lemma render_idempotent_001 (m : model) : render (render m) = render m.
Proof.
  unfold render; simpl. rewrite SetContent_Width.
  now rewrite SetContent_idempotent.
Qed.

End Transcript001.

(** ** The claims about the transcript *)

(** C1 (as stated, on part_001).  One submission delivered to the
    [Update] of part_001 leaves two strings in [messages], the label and
    the text, not the one entry that N + M = 1 + 0 asks for. *)
Lemma messages_length_001_not_N_plus_M :
  List.length
    (Part001.messages
       (Part001.run (B:=plainBubbles) (Part001.initialModel (B:=plainBubbles))
          [key tea.KeyEnter]))
  <> (count isSubmit [key tea.KeyEnter]
      + count isAgentEvent [key tea.KeyEnter])%nat.
Proof. vm_compute. discriminate. Qed.

(** C1 (amended).  After any sequence of messages with N submissions
    (Enter keys) and M agent events, delivered to [Update] from the
    initial model in any interleaving with resizes and other keys:
    part_000 holds exactly N + M strings in [messages], one per entry,
    N of them user entries and M agent entries, in the order of
    delivery; part_001 holds exactly 2 * (N + M) strings, a label and a
    text for each of the same N + M entries. *)
Theorem transcript_length :
  forall (B : Bubbles) (msgs : list Msg),
    let N := count isSubmit msgs in
    let M := count isAgentEvent msgs in
    let es0 := Part000.entries Part000.initialModel msgs in
    let es1 := Part001.entries Part001.initialModel msgs in
    (Part000.messages (Part000.run Part000.initialModel msgs)
       = map Part000.show es0
     /\ List.length (filter isUser es0) = N
     /\ List.length (filter (fun e => negb (isUser e)) es0) = M
     /\ List.length (Part000.messages (Part000.run Part000.initialModel msgs))
        = (N + M)%nat)
    /\
    (Part001.messages (Part001.run Part001.initialModel msgs)
       = flat_map (Part001.show Part001.initialModel) es1
     /\ List.length es1 = (N + M)%nat
     /\ List.length (Part001.messages (Part001.run Part001.initialModel msgs))
        = (2 * (N + M))%nat).
Proof.
  intros B msgs N M es0 es1. split.
  - assert (Hrun : Part000.messages (Part000.run Part000.initialModel msgs)
                   = map Part000.show es0)
      by (rewrite run_messages_000; reflexivity).
    split; [exact Hrun|].
    split; [apply entries_users_000|].
    split; [apply entries_agents_000|].
    rewrite Hrun, length_map. apply entries_length_000.
  - assert (Hrun : Part001.messages (Part001.run Part001.initialModel msgs)
                   = flat_map (Part001.show Part001.initialModel) es1)
      by (rewrite run_messages_001; reflexivity).
    split; [exact Hrun|].
    split; [apply entries_length_001|].
    rewrite Hrun, show_length_001. unfold es1.
    now rewrite entries_length_001.
Qed.

(** C6.  The transcript is append-only: a step of [Update], whatever the
    message (submit, agent event, resize, keystroke, error), and so any
    run of steps, leaves the strings already in [messages] in place and
    in order, as a prefix of the new list; in both variants. *)
Theorem transcript_append_only :
  forall (B : Bubbles),
    (forall m msg, exists new,
        Part000.messages (fst (fst (Part000.Update m msg)))
        = (Part000.messages m ++ new)%list)
    /\ (forall m msgs, exists new,
           Part000.messages (Part000.run m msgs)
           = (Part000.messages m ++ new)%list)
    /\ (forall m msg, exists new,
           Part001.messages (fst (fst (Part001.Update m msg)))
           = (Part001.messages m ++ new)%list)
    /\ (forall m msgs, exists new,
           Part001.messages (Part001.run m msgs)
           = (Part001.messages m ++ new)%list).
Proof.
  intros B. repeat split.
  - intros m msg. eexists. apply (step_messages_000 m msg).
  - intros m msgs. eexists. apply run_messages_000.
  - intros m msg. eexists. apply (step_messages_001 m msg).
  - intros m msgs. eexists. apply run_messages_001.
Qed.

(** C5 (as stated, on part_001).  With [hi] in the input box, the Enter
    key of part_001 does not hand the box's text to [ask]: the question
    is the text with a newline added. *)
Lemma submit_001_asks_text_with_newline :
  let m :=
    Part001.run (B:=plainBubbles) (Part001.initialModel (B:=plainBubbles))
      [type "hi"] in
  textarea.Value (Part001.textarea m) = "hi"
  /\ snd (Part001.Update (B:=plainBubbles) m (key tea.KeyEnter))
     <> [GoAsk (textarea.Value (Part001.textarea m))].
Proof. vm_compute. split; [reflexivity | discriminate]. Qed.

(** C5 (amended).  For every content [text] of the input box, the empty
    one included, the Enter key (newline insertion being switched off,
    as [initialModel] leaves it, so that the textarea leaves the text
    alone on Enter) is handled without any check of [text]:
    the box is emptied, and [ask] is started as a goroutine, the step
    not waiting for it.  In part_000 one string is appended to the
    transcript, the user badge and [text], and the question is [text];
    in part_001 two strings are appended, the label and [text] followed
    by a newline, and the question is [text] followed by a newline. *)
Theorem submit_appends_clears_asks :
  forall (B : Bubbles) (L : EnterLeavesText B) (k : tea.Key),
    tea.Type_ k = tea.KeyEnter -> tea.Runes k = EmptyString ->
    (forall m : Part000.model,
        textarea.InsertNewline (Part000.textarea m) = false ->
        let text := textarea.Value (Part000.textarea m) in
        let m' := fst (fst (Part000.Update m (KeyMsg k))) in
        Part000.messages m'
        = (Part000.messages m ++ [(Part000.you ++ " " ++ text)%string])%list
        /\ textarea.Value (Part000.textarea m') = EmptyString
        /\ snd (Part000.Update m (KeyMsg k)) = [GoAsk text])
    /\
    (forall m : Part001.model,
        textarea.InsertNewline (Part001.textarea m) = false ->
        let text := textarea.Value (Part001.textarea m) in
        let m' := fst (fst (Part001.Update m (KeyMsg k))) in
        Part001.messages m'
        = (Part001.messages m
           ++ [Render (Part001.senderStyle m) "You:";
               (text ++ Str.nl)%string])%list
        /\ textarea.Value (Part001.textarea m') = EmptyString
        /\ snd (Part001.Update m (KeyMsg k)) = [GoAsk (text ++ Str.nl)]).
Proof.
  intros B L k Hk Hr. split; intros m Hoff text m'.
  - destruct (Update_enter_000 m k Hk) as (Hm & Hv & He).
    unfold textarea.Value in Hm, He.
    rewrite (L _ _ Hk Hr Hoff) in Hm, He.
    repeat split; assumption.
  - destruct (Update_enter_001 m k Hk) as (Hm & Hv & He).
    unfold textarea.Value in Hm, He.
    rewrite (L _ _ Hk Hr Hoff) in Hm, He.
    repeat split; assumption.
Qed.

(** C5, run: [hi] typed and Enter pressed on the test terminal. *)
Lemma submit_appends_clears_asks_witness :
  let m0 :=
    Part000.run (B:=plainBubbles) (Part000.initialModel (B:=plainBubbles))
      [type "hi"] in
  let m1 :=
    Part001.run (B:=plainBubbles) (Part001.initialModel (B:=plainBubbles))
      [type "hi"] in
  snd (Part000.Update (B:=plainBubbles) m0 (key tea.KeyEnter)) = [GoAsk "hi"]
  /\ snd (Part001.Update (B:=plainBubbles) m1 (key tea.KeyEnter))
     = [GoAsk ("hi" ++ Str.nl)].
Proof.
  intros m0 m1.
  destruct (submit_appends_clears_asks plainBubbles plainBubbles_enter
              (tea.mkKey tea.KeyEnter "" false) eq_refl eq_refl) as [H0 H1].
  split.
  - exact (proj2 (proj2 (H0 m0 eq_refl))).
  - exact (proj2 (proj2 (H1 m1 eq_refl))).
Defined.




(** C3.  Rendering is a function of the transcript and the viewport
    width alone, in both variants: the lines on display after a render
    are those of the text built from [messages] at the current width,
    whatever was on display before; rendering twice in a row is
    rendering once; and after rendering at one width and then at
    another, the display is that of the second width. *)
Theorem render_pure_idempotent :
  forall (B : Bubbles),
    (forall m,
        viewport.lines (Part000.viewport (Part000.render m))
        = Str.splitLines
            (Str.normalizeLineEndings
               (Part000.renderText (Part000.messages m)
                  (viewport.Width (Part000.viewport m)))))
    /\ (forall m, Part000.render (Part000.render m) = Part000.render m)
    /\ (forall m w1 w2,
           viewport.lines
             (Part000.viewport
                (Part000.render
                   (Part000.atWidth w2
                      (Part000.render (Part000.atWidth w1 m)))))
           = viewport.lines
               (Part000.viewport (Part000.render (Part000.atWidth w2 m))))
    /\ (forall m,
           viewport.lines (Part001.viewport (Part001.render m))
           = Str.splitLines
               (Str.normalizeLineEndings
                  (Part001.renderText (Part001.messages m)
                     (viewport.Width (Part001.viewport m)))))
    /\ (forall m, Part001.render (Part001.render m) = Part001.render m)
    /\ (forall m w1 w2,
           viewport.lines
             (Part001.viewport
                (Part001.render
                   (Part001.atWidth w2
                      (Part001.render (Part001.atWidth w1 m)))))
           = viewport.lines
               (Part001.viewport (Part001.render (Part001.atWidth w2 m)))).
Proof.
  intros B. repeat split.
  - apply render_lines_000.
  - apply render_idempotent_000.
  - intros m w1 w2. now rewrite !render_lines_000.
  - apply render_lines_001.
  - apply render_idempotent_001.
  - intros m w1 w2. now rewrite !render_lines_001.
Qed.

(** * Properties of the tool handlers *)

Section Handlers.
Context {W : Registry.World}.
Import Registry.

Lemma syntaxMessage_nonempty (e : Json.SyntaxError) :
  Json.syntaxMessage e <> EmptyString.
Proof. destruct e; discriminate. Qed.

(** A text that is not JSON leaves the struct alone and comes back as
    the syntax error. *)
Lemma Unmarshal_invalid (args field param : string) :
  Json.valid args = false ->
  exists e, Json.parse args = inl e
            /\ Json.Unmarshal args field param
               = (param, Some (mkError (Json.syntaxMessage e))).
Proof.
  unfold Json.valid, Json.Unmarshal.
  destruct (Json.parse args) as [e|v]; [|discriminate].
  intros _. now exists e.
Qed.

(** Members that do not name the field store nothing. *)
Lemma object_unmentioned (field : string) (ms : list (string * Json.Value))
  (param : string) (saved : option error) :
  Json.mentions field ms = false ->
  Json.object field ms param saved = (param, saved).
Proof.
  induction ms as [|[k v] ms IH]; simpl; [reflexivity|].
  intros H. apply orb_false_iff in H as [Hk Hms].
  rewrite Hk. now apply IH.
Qed.

(** The loop that copies the provider's results is a [map]. *)
Lemma fold_append_map {A C : Type} (f : A -> C) (l : list A) (acc : list C) :
  fold_left (fun acc x => (acc ++ [f x])%list) l acc = (acc ++ map f l)%list.
Proof.
  revert acc; induction l as [|x l IH]; intros acc; simpl.
  - now rewrite app_nil_r.
  - now rewrite IH, <- app_assoc.
Qed.

(** [currentTime] and [webSearch] have no statement that can panic. *)
Lemma currentTime_returns (args : string) :
  currentTime args = (Returned (Time.Format Now), []).
Proof. reflexivity. Qed.

Lemma webSearch_returns (args : string) :
  isPanic (fst (webSearch args)) = false.
Proof.
  unfold webSearch.
  destruct (Json.Unmarshal args "Keyword" "") as [kw [e|]]; [reflexivity|].
  simpl. now destruct (Search kw 10).
Qed.

(** [WebReader] returns whenever [http.NewRequest] accepts the URL. *)
Lemma WebReader_returns (ua args : string) :
  (forall e, NewRequest "GET" (fst (Json.Unmarshal args "Url" "")) <> inl e) ->
  isPanic (fst (WebReader_as ua args)) = false.
Proof.
  unfold WebReader_as. intros Hok.
  destruct (Json.Unmarshal args "Url" "") as [url [e|]]; [reflexivity|].
  simpl in Hok. destruct (NewRequest "GET" url) as [e|r].
  - now destruct (Hok e).
  - simpl. destruct (Do _) as [e|body]; [reflexivity|].
    simpl. now destruct (ReadAll body).
Qed.

End Handlers.

(** C2 (the code against the claim).  When the decoded [url] is one
    that [http.NewRequest] refuses, [WebReader] does not return a
    string: the error is dropped, the request is nil, and setting the
    User-Agent on it panics, before anything is sent.  Both copies of
    the handler do so. *)
Theorem WebReader_panics_on_refused_url :
  forall (W : Registry.World) (args url : string) (e : error),
    Json.Unmarshal args "Url" "" = (url, None) ->
    Registry.NewRequest "GET" url = inl e ->
    Registry.WebReader args
    = (Registry.Panicked Registry.nilDereference, [])
    /\ Registry.WebReader001 args
       = (Registry.Panicked Registry.nilDereference, []).
Proof.
  intros W args url e Hargs Hreq.
  unfold Registry.WebReader, Registry.WebReader001, Registry.WebReader_as.
  rewrite Hargs, Hreq. split; reflexivity.
Qed.

(** C2, run: [{"url":":"}], whose URL has no scheme before its colon. *)
Lemma WebReader_panics_on_refused_url_witness :
  Registry.WebReader (W:=Registry.unplugged) (Json.object1 "url" ":")
  = (Registry.Panicked Registry.nilDereference, [])
  /\ Registry.WebReader001 (W:=Registry.unplugged) (Json.object1 "url" ":")
     = (Registry.Panicked Registry.nilDereference, []).
Proof.
  apply (WebReader_panics_on_refused_url Registry.unplugged
           (Json.object1 "url" ":") ":"
           (mkError "parse: missing protocol scheme"));
    reflexivity.
Defined.

(** C4.  For every argument string that is not valid JSON, [webSearch]
    returns the decoder's syntax error as its string, which is not
    empty, and makes no network call: the search provider is not
    reached. *)
Theorem webSearch_invalid_json :
  forall (W : Registry.World) (args : string),
    Json.valid args = false ->
    exists e,
      Json.parse args = inl e
      /\ Registry.webSearch args
         = (Registry.Returned (Json.syntaxMessage e), [])
      /\ Json.syntaxMessage e <> EmptyString
      /\ Registry.offline (snd (Registry.webSearch args)).
Proof.
  intros W args Hbad.
  destruct (Unmarshal_invalid args "Keyword" "" Hbad) as (e & Hparse & Hun).
  exists e. unfold Registry.webSearch. rewrite Hun. simpl.
  repeat split; [exact Hparse | apply syntaxMessage_nonempty].
Qed.

(** C4, run: the argument [{]. *)
Lemma webSearch_invalid_json_witness :
  Registry.webSearch (W:=Registry.onePage) "{"
  = (Registry.Returned "unexpected end of JSON input", []).
Proof.
  destruct (webSearch_invalid_json Registry.onePage "{" eq_refl)
    as (e & Hparse & Hret & _).
  rewrite Hret. vm_compute in Hparse.
  injection Hparse as <-. reflexivity.
Defined.

(** C9 (as stated).  The argument [[]] is valid JSON and has no
    [keyword] member, and yet [webSearch] answers with the decoder's
    error and starts no search: only an object is decoded into the
    parameter struct. *)
Lemma webSearch_array_is_refused :
  Json.valid "[]" = true
  /\ Registry.webSearch (W:=Registry.onePage) "[]"
     = (Registry.Returned
          "json: cannot unmarshal array into Go value of type struct { Keyword string }",
        []).
Proof. split; reflexivity. Qed.

(** C9 (amended).  For every argument string that is a valid JSON
    object without a member for the field (any spelling of [keyword]
    that differs in case only counts as the field), and for the JSON
    [null], [webSearch] gets no error from the decoder, checks nothing
    about the schema's required field, and calls the search provider
    with the empty keyword and a count of 10; what it returns is the
    provider's error or the encoded results.  For every argument string
    that is valid JSON of another kind (an array, a string, a number, a
    boolean) it returns the decoder's type error and calls nothing. *)
Theorem webSearch_missing_keyword :
  forall (W : Registry.World) (args : string),
    ((exists ms, Json.parse args = inr (Json.Object ms)
                 /\ Json.mentions "Keyword" ms = false)
     \/ Json.parse args = inr Json.Null ->
     Json.Unmarshal args "Keyword" "" = (EmptyString, None)
     /\ snd (Registry.webSearch args) = [Registry.Searched "" 10]
     /\ fst (Registry.webSearch args)
        = match Registry.Search "" 10 with
          | inl e => Registry.Returned (Error e)
          | inr res =>
              Registry.Returned
                (Registry.Marshal
                   (map (fun h => Registry.mkresult (Registry.hitTitle h)
                                    (Registry.hitLink h)
                                    (Registry.hitDescription h))
                      res))
          end)
    /\
    (forall v,
        Json.parse args = inr v -> Json.decodable v = false ->
        Registry.webSearch args
        = (Registry.Returned (Error (Json.structTypeError v "Keyword")), [])).
Proof.
  intros W args. split.
  2: { intros v Hparse Hv. unfold Registry.webSearch, Json.Unmarshal.
       rewrite Hparse. destruct v; try discriminate; reflexivity. }
  intros Hparse.
  assert (Hun : Json.Unmarshal args "Keyword" "" = (EmptyString, None)).
  { unfold Json.Unmarshal.
    destruct Hparse as [(ms & -> & Hms) | ->]; [|reflexivity].
    now apply object_unmentioned. }
  split; [exact Hun|].
  unfold Registry.webSearch. rewrite Hun. simpl.
  destruct (Registry.Search "" 10) as [e|res]; simpl; [now split|].
  split; [reflexivity|]. now rewrite fold_append_map.
Qed.

(** C9, run: the argument [{}] without a network, and the argument
    [7]. *)
Lemma webSearch_missing_keyword_witness :
  Registry.webSearch (W:=Registry.unplugged) "{}"
  = (Registry.Returned "dial tcp: no route to host",
     [Registry.Searched "" 10])
  /\ Registry.webSearch (W:=Registry.unplugged) "7"
     = (Registry.Returned
          "json: cannot unmarshal number into Go value of type struct { Keyword string }",
        []).
Proof.
  split.
  - destruct (webSearch_missing_keyword Registry.unplugged "{}")
      as [Hobject _].
    destruct (Hobject (or_introl (ex_intro _ [] (conj eq_refl eq_refl))))
      as (_ & Hcalls & Hret).
    rewrite (surjective_pairing (Registry.webSearch "{}")), Hcalls, Hret.
    reflexivity.
  - exact (proj2 (webSearch_missing_keyword Registry.unplugged "7")
             (Json.Number "7") eq_refl eq_refl).
Defined.

(** * Properties of the clock *)

Section Clock.
Import Time.

Lemma digit_code (d : Z) :
  0 <= d < 10 -> Json.isDigit (digit d) = true /\ Json.code (digit d) - 48 = d.
Proof.
  intros H.
  assert (Hd : d = 0 \/ d = 1 \/ d = 2 \/ d = 3 \/ d = 4 \/ d = 5 \/ d = 6
               \/ d = 7 \/ d = 8 \/ d = 9) by lia.
  repeat (destruct Hd as [-> | Hd]; [split; reflexivity|]).
  subst; split; reflexivity.
Qed.

(** Reading back [n] digits gives the number they spell. *)
Lemma digitsAcc_pad (n : nat) (x acc : Z) (rest : string) :
  0 <= x ->
  digitsAcc n acc (pad n x ++ rest)
  = Some (acc * 10 ^ Z.of_nat n + x mod 10 ^ Z.of_nat n, rest).
Proof.
  intros Hx. revert acc. induction n as [|n IH]; intros acc.
  - simpl. rewrite Z.mod_1_r. do 2 f_equal. lia.
  - cbn [pad digitsAcc append].
    assert (Hp : 0 < 10 ^ Z.of_nat n) by (apply Z.pow_pos_nonneg; lia).
    destruct (digit_code ((x / 10 ^ Z.of_nat n) mod 10)) as [Hd Hc].
    { apply Z.mod_pos_bound; lia. }
    rewrite Hd, Hc, IH. do 2 f_equal.
    rewrite Nat2Z.inj_succ, Z.pow_succ_r by lia.
    rewrite (Z.mul_comm 10 (10 ^ Z.of_nat n)).
    rewrite Z.rem_mul_r by lia. lia.
Qed.

Lemma parseUint_pad (n : nat) (min max x : Z) (rest : string) :
  0 <= x < 10 ^ Z.of_nat n -> min <= x <= max ->
  parseUint n min max (pad n x ++ rest) = Some (x, rest).
Proof.
  intros Hx Hr. unfold parseUint.
  rewrite digitsAcc_pad by lia. rewrite Z.mod_small by lia. simpl.
  replace (min <=? x) with true by (symmetry; apply Z.leb_le; lia).
  replace (x <=? max) with true by (symmetry; apply Z.leb_le; lia).
  reflexivity.
Qed.

Lemma append_empty (s : string) : s ++ "" = s.
Proof. induction s as [|c s IH]; simpl; [reflexivity | now rewrite IH]. Qed.

Lemma appendInt_pad (n : nat) (x : Z) :
  0 <= x < 10 ^ Z.of_nat n -> appendInt x n = pad n x.
Proof.
  intros Hx. unfold appendInt.
  replace (x <? 0) with false by (symmetry; apply Z.ltb_ge; lia).
  rewrite Z.abs_eq by lia.
  replace (x <? 10 ^ Z.of_nat n) with true by (symmetry; apply Z.ltb_lt; lia).
  reflexivity.
Qed.

Lemma allFrom_spec (n : nat) (p : Z -> bool) (z0 : Z) :
  allFrom n z0 p = true ->
  forall z, z0 <= z < z0 + Z.of_nat n -> p z = true.
Proof.
  revert z0; induction n as [|n IH]; intros z0 H z Hz; [lia|].
  simpl in H. apply andb_true_iff in H as [Hn Hrest].
  destruct (Z.eq_dec z z0) as [->|Hne]; [exact Hn|].
  apply (IH (z0 + 1)); [exact Hrest | lia].
Qed.

Lemma era_days_checked : allFrom (Z.to_nat 146097) 0 checkEraDay = true.
Proof. vm_compute. reflexivity. Qed.

Lemma checkEraDay_all (doe : Z) :
  0 <= doe < 146097 -> checkEraDay doe = true.
Proof.
  intros H. apply (allFrom_spec _ _ _ era_days_checked).
  rewrite Z2Nat.id; lia.
Qed.

Lemma isLeap_era (y e : Z) : isLeap (y + e * 400) = isLeap y.
Proof.
  unfold isLeap.
  replace ((y + e * 400) mod 4) with (y mod 4)
    by (replace (e * 400) with (e * 100 * 4) by lia;
        now rewrite Z.mod_add by lia).
  replace ((y + e * 400) mod 100) with (y mod 100)
    by (replace (e * 400) with (e * 4 * 100) by lia;
        now rewrite Z.mod_add by lia).
  now rewrite Z.mod_add by lia.
Qed.

Lemma daysIn_era (m y e : Z) : daysIn m (y + e * 400) = daysIn m y.
Proof. unfold daysIn. now rewrite isLeap_era. Qed.

(** The date of a day number is a date of the calendar, and counts
    back to the day number. *)
Lemma civil_valid (z : Z) :
  let '(y, m, d) := civil z in
  1 <= m <= 12 /\ 1 <= d <= daysIn m y /\ daysFromCivil y m d = z.
Proof.
  unfold civil.
  pose proof (checkEraDay_all ((z + 719468) mod 146097)) as Hc.
  pose proof (Z.mod_pos_bound (z + 719468) 146097 ltac:(lia)) as Hb.
  specialize (Hc Hb). unfold checkEraDay in Hc.
  pose proof (Z.div_mod (z + 719468) 146097 ltac:(lia)) as Hdm.
  destruct (civilOfEraDay ((z + 719468) mod 146097)) as [[yoe m] d].
  repeat (apply andb_true_iff in Hc as [Hc ?]).
  repeat match goal with
         | H : (_ <=? _) = true |- _ => apply Z.leb_le in H
         | H : (_ <? _) = true |- _ => apply Z.ltb_lt in H
         | H : (_ =? _) = true |- _ => apply Z.eqb_eq in H
         end.
  set (era := (z + 719468) / 146097) in *.
  assert (Hy : (if m <=? 2 then yoe + era * 400 + 1 else yoe + era * 400)
               = (if m <=? 2 then yoe + 1 else yoe) + era * 400)
    by (destruct (m <=? 2); lia).
  split; [lia|]. split.
  - rewrite Hy, daysIn_era. lia.
  - unfold daysFromCivil.
    replace (if m <=? 2
             then (if m <=? 2 then yoe + era * 400 + 1
                   else yoe + era * 400) - 1
             else (if m <=? 2 then yoe + era * 400 + 1
                   else yoe + era * 400))
      with (yoe + era * 400) by (destruct (m <=? 2); lia).
    rewrite Z.div_add, Z.mod_add by lia.
    rewrite Z.div_small, Z.mod_small by lia. lia.
Qed.

Ltac read_field :=
  rewrite parseUint_pad by (try change (10 ^ Z.of_nat 4) with 10000;
                            try change (10 ^ Z.of_nat 2) with 100; lia);
  cbn [append expect Ascii.eqb Bool.eqb].

(** The reader on a date and a clock written out in digits. *)
Lemma parseRFC3339_fields (y mo d h mi s : Z) (rest : string) :
  0 <= y <= 9999 -> 1 <= mo <= 12 -> 1 <= d <= daysIn mo y ->
  0 <= h <= 23 -> 0 <= mi <= 59 -> 0 <= s <= 59 ->
  parseRFC3339
    (pad 4 y ++ "-" ++ pad 2 mo ++ "-" ++ pad 2 d ++ "T"
     ++ pad 2 h ++ ":" ++ pad 2 mi ++ ":" ++ pad 2 s ++ rest)
  = fractionAndZone
      (daysFromCivil y mo d * 86400 + h * 3600 + mi * 60 + s) rest.
Proof.
  intros Hy Hmo Hd Hh Hmi Hs.
  assert (Hdim : daysIn mo y <= 31)
    by (unfold daysIn; destruct (mo =? 2), (isLeap y),
          ((mo =? 4) || (mo =? 6) || (mo =? 9) || (mo =? 11)); lia).
  unfold parseRFC3339.
  do 6 read_field. reflexivity.
Qed.

Lemma fractionAndZone_offset (utc hh mm : Z) (sign : ascii) :
  0 <= hh <= 23 -> 0 <= mm <= 59 ->
  sign = "+"%char \/ sign = "-"%char ->
  fractionAndZone utc (String sign (pad 2 hh ++ String ":" (pad 2 mm)))
  = Some (if Ascii.eqb sign "-"
          then mkTime (utc + (hh * 60 + mm) * 60) 0 (- ((hh * 60 + mm) * 60))
          else mkTime (utc - (hh * 60 + mm) * 60) 0 ((hh * 60 + mm) * 60)).
Proof.
  intros Hh Hm Hsign. unfold fractionAndZone.
  rewrite <- (append_empty (pad 2 mm)).
  destruct Hsign as [-> | ->]; cbn [Ascii.eqb Bool.eqb];
    do 2 read_field; reflexivity.
Qed.

(** A timestamp written by [Format] reads back as the instant it was
    written for, to the second, in the same zone. *)
Lemma Format_parse (t : Time) :
  0 <= Year t <= 9999 ->
  offset t mod 60 = 0 -> -86400 < offset t < 86400 ->
  parseRFC3339 (Format t) = Some (truncateToSecond t).
Proof.
  unfold Year, Format, truncateToSecond. intros Hy Hz Hoff.
  pose proof (civil_valid ((sec t + offset t) / 86400)) as Hc.
  destruct (civil ((sec t + offset t) / 86400)) as [[y m] d].
  simpl in Hy. destruct Hc as (Hm & Hd & Hdays).
  pose proof (Z.div_mod (sec t + offset t) 86400 ltac:(lia)) as Hdm.
  pose proof (Z.mod_pos_bound (sec t + offset t) 86400 ltac:(lia)) as Hcb.
  set (clock := (sec t + offset t) mod 86400) in *.
  assert (Hdim : daysIn m y <= 31)
    by (unfold daysIn; destruct (m =? 2), (isLeap y),
          ((m =? 4) || (m =? 6) || (m =? 9) || (m =? 11)); lia).
  assert (Hh : 0 <= clock / 3600 <= 23)
    by (split; [apply Z.div_pos; lia
               | apply Z.lt_succ_r, Z.div_lt_upper_bound; lia]).
  pose proof (Z.mod_pos_bound clock 3600 ltac:(lia)) as Hr.
  assert (Hmi : 0 <= clock mod 3600 / 60 <= 59)
    by (split; [apply Z.div_pos; lia
               | apply Z.lt_succ_r, Z.div_lt_upper_bound; lia]).
  pose proof (Z.mod_pos_bound clock 60 ltac:(lia)) as Hs.
  assert (Hutc : daysFromCivil y m d * 86400 + clock / 3600 * 3600
                 + clock mod 3600 / 60 * 60 + clock mod 60
                 = sec t + offset t).
  { rewrite Hdays.
    pose proof (Z.div_mod clock 3600 ltac:(lia)).
    pose proof (Z.div_mod (clock mod 3600) 60 ltac:(lia)).
    assert (clock mod 60 = (clock mod 3600) mod 60).
    { symmetry. apply Z.mod_mod_divide. now exists 60. }
    lia. }
  rewrite !appendInt_pad
    by (try change (10 ^ Z.of_nat 4) with 10000;
        try change (10 ^ Z.of_nat 2) with 100; lia).
  rewrite parseRFC3339_fields by lia. rewrite Hutc.
  destruct (Z.eqb_spec (offset t) 0) as [H0|Hne].
  - cbn. rewrite H0. do 2 f_equal. lia.
  - set (zone := Z.quot (offset t) 60).
    assert (Hq : offset t = 60 * zone)
      by (unfold zone; pose proof (Z.quot_rem' (offset t) 60);
          pose proof (proj2 (Z.rem_mod_eq_0 (offset t) 60 ltac:(lia)) Hz);
          lia).
    assert (Hzh : 0 <= Z.abs zone / 60 <= 23)
      by (split; [apply Z.div_pos; lia
                 | apply Z.lt_succ_r, Z.div_lt_upper_bound; lia]).
    pose proof (Z.mod_pos_bound (Z.abs zone) 60 ltac:(lia)) as Hzm.
    pose proof (Z.div_mod (Z.abs zone) 60 ltac:(lia)) as Hzdm.
    rewrite !appendInt_pad by (change (10 ^ Z.of_nat 2) with 100; lia).
    destruct (Z.ltb_spec zone 0) as [Hneg|Hpos];
      cbn [append]; rewrite fractionAndZone_offset by (auto; lia);
      cbn [Ascii.eqb Bool.eqb]; destruct t as [s n o];
      cbn [sec nsec offset] in *; f_equal; f_equal; lia.
Qed.
End Clock.

(** C7 (as stated).  With a clock that reads half a second past the
    second, the string [currentTime] returns parses back to the second
    alone: RFC 3339 as [time.RFC3339] lays it out has no fraction. *)
Lemma currentTime_drops_nanoseconds :
  exists s,
    Registry.currentTime (W:=Registry.unplugged) "{}"
    = (Registry.Returned s, [])
    /\ Time.parseRFC3339 s
       = Some (Time.mkTime 1793408523 0 32400)
    /\ Time.parseRFC3339 s <> Some (Registry.Now (World:=Registry.unplugged)).
Proof.
  eexists. split; [reflexivity|]. split; [reflexivity|].
  vm_compute. discriminate.
Qed.

(** C7 (amended).  For every argument string, [currentTime] ignores the
    argument and returns the clock's reading in the RFC 3339 layout,
    to the second and with its zone offset; it has no error path and
    reaches no network.  For a reading whose local year is within 0 to
    9999 and whose zone offset is a whole number of minutes, less than a
    day, the returned string parses back to the invocation time
    truncated to the second, in the same zone. *)
Theorem currentTime_rfc3339 :
  forall (W : Registry.World) (args : string),
    Registry.currentTime args
    = (Registry.Returned (Time.Format Registry.Now), [])
    /\ (0 <= Time.Year Registry.Now <= 9999 ->
        Time.offset Registry.Now mod 60 = 0 ->
        -86400 < Time.offset Registry.Now < 86400 ->
        Time.parseRFC3339 (Time.Format Registry.Now)
        = Some (Time.truncateToSecond Registry.Now)).
Proof.
  intros W args. split; [reflexivity|]. apply Format_parse.
Qed.

(** C7, run: the clock at 2026-10-31T10:02:03.5+09:00. *)
Lemma currentTime_rfc3339_witness :
  Time.parseRFC3339
    (Time.Format (Registry.Now (World:=Registry.unplugged)))
  = Some (Time.mkTime 1793408523 0 32400).
Proof.
  apply (proj2 (currentTime_rfc3339 Registry.unplugged "{}")).
  - vm_compute. split; discriminate.
  - reflexivity.
  - simpl. lia.
Defined.

(** C10.  The description registered for [webSearch] is, character for
    character, the one registered for [currentTime], ["Get the current
    date and time with timezone in a human-readable format."]; in both
    copies of the registry. *)
Theorem webSearch_description :
  forall (W : Registry.World),
    option_map Registry.Description
      (Registry.lookup "webSearch" Registry.Tools)
    = Some "Get the current date and time with timezone in a human-readable format."
    /\ option_map Registry.Description
         (Registry.lookup "webSearch" Registry.Tools)
       = option_map Registry.Description
           (Registry.lookup "currentTime" Registry.Tools)
    /\ option_map Registry.Description
         (Registry.lookup "webSearch" Registry.tools)
       = Some "Get the current date and time with timezone in a human-readable format."
    /\ option_map Registry.Description
         (Registry.lookup "webSearch" Registry.tools)
       = option_map Registry.Description
           (Registry.lookup "currentTime" Registry.tools).
Proof. intros W. repeat split. Qed.

(** * Further properties of the chat view controller *)

Lemma append_assoc (a b c : string) : (a ++ b) ++ c = a ++ (b ++ c).
Proof. induction a as [|x a IH]; simpl; [reflexivity | now rewrite IH]. Qed.

Section Run000.
Context {B : Bubbles}.
Import Part000.

Lemma entryOf_agents_are_000 (m : model) (msg : Msg) :
  filter (fun e => negb (isUser e)) (entryOf m msg) = agentEntry msg.
Proof.
  destruct msg as [w h|s|s|s|k|e|t]; simpl; try reflexivity.
  now destruct (tea.Type_ k).
Qed.

Lemma entries_agents_are_000 (msgs : list Msg) (m : model) :
  filter (fun e => negb (isUser e)) (entries m msgs) = flat_map agentEntry msgs.
Proof.
  revert m; induction msgs as [|msg msgs IH]; intros m; [reflexivity|].
  simpl. now rewrite filter_app, IH, entryOf_agents_are_000.
Qed.

Lemma entries_ask_000 (results : list Result) (m : model) :
  entries m (ask results) = flat_map resultEntry000 results.
Proof.
  revert m; induction results as [|r rs IH]; intros m; [reflexivity|].
  destruct r; simpl; now rewrite IH.
Qed.

Lemma step_asked_000 (m : model) (msg : Msg) :
  flat_map (fun e => match e with GoAsk q => [q] | Println _ => [] end)
    (snd (Update m msg))
  = map text (filter isUser (entryOf m msg)).
Proof.
  unfold Update, entryOf.
  destruct (textarea_Update (textarea m) msg) as [ta tiCmd].
  destruct (viewport_Update _ msg) as [vp vpCmd].
  destruct msg as [w h|s|s|s|k|e|t]; simpl; try reflexivity.
  now destruct (tea.Type_ k).
Qed.

Lemma asked_entries_000 (msgs : list Msg) (m : model) :
  asked m msgs = map text (filter isUser (entries m msgs)).
Proof.
  revert m; induction msgs as [|msg msgs IH]; intros m; [reflexivity|].
  simpl. now rewrite filter_app, map_app, IH, step_asked_000.
Qed.

Lemma step_err_000 (m : model) (msg : Msg) :
  err (step m msg) = match msg with errMsg e => Some e | _ => err m end.
Proof.
  unfold step, Update.
  destruct (textarea_Update (textarea m) msg) as [ta tiCmd].
  destruct (viewport_Update _ msg) as [vp vpCmd].
  destruct msg as [w h|s|s|s|k|e|t]; simpl; try reflexivity.
  - now destruct (0 <? _).
  - now destruct (tea.Type_ k).
Qed.

Lemma run_err_000 (msgs : list Msg) (m : model) :
  err (run m msgs) = lastErr (err m) msgs.
Proof.
  revert m; induction msgs as [|msg msgs IH]; intros m; [reflexivity|].
  unfold run in *; simpl. rewrite IH, step_err_000. now destruct msg.
Qed.

Lemma renderText_from_000 (msgs : list string) (w : Z) (acc : string) :
  fold_left
    (fun s message =>
       s ++ Render entryStyle
              (Render (lipgloss.Width w lipgloss.NewStyle) message))
    msgs acc
  = acc ++ renderText msgs w.
Proof.
  unfold renderText. revert acc.
  induction msgs as [|x msgs IH]; intros acc; simpl.
  - now rewrite append_empty.
  - rewrite IH, (IH (Render _ _)). now rewrite append_assoc.
Qed.

Lemma renderText_app_000 (a b : list string) (w : Z) :
  renderText (a ++ b) w = renderText a w ++ renderText b w.
Proof.
  unfold renderText at 1. rewrite fold_left_app.
  fold (renderText a w). apply renderText_from_000.
Qed.

Lemma step_quit_000 (m : model) (msg : Msg) :
  snd (fst (Update m msg)) = tea.Quit <-> isQuit msg = true.
Proof.
  unfold Update.
  destruct (textarea_Update (textarea m) msg) as [ta tiCmd].
  destruct (viewport_Update _ msg) as [vp vpCmd].
  destruct msg as [w h|s|s|s|k|e|t]; simpl;
    try (split; discriminate).
  destruct (tea.Type_ k); simpl; split; try discriminate; reflexivity.
Qed.

Lemma InsertNewline_step_000 (K : KeyMapKept B) (m : model) (msg : Msg) :
  textarea.InsertNewline (textarea (step m msg))
  = textarea.InsertNewline (textarea m).
Proof.
  pose proof (K (textarea m) msg) as HU.
  unfold step, Update.
  destruct (textarea_Update (textarea m) msg) as [ta tiCmd].
  destruct (viewport_Update _ msg) as [vp vpCmd]. simpl in HU.
  destruct msg as [w h|s|s|s|k|e|t]; simpl; try exact HU.
  - now destruct (0 <? _).
  - destruct (tea.Type_ k); simpl; try exact HU.
    now rewrite InsertString_InsertNewline.
Qed.

Lemma InsertNewline_run_000 (K : KeyMapKept B) (msgs : list Msg)
  (m : model) :
  textarea.InsertNewline (textarea (run m msgs))
  = textarea.InsertNewline (textarea m).
Proof.
  revert m; induction msgs as [|msg msgs IH]; intros m; [reflexivity|].
  unfold run in *; simpl. now rewrite IH, InsertNewline_step_000.
Qed.

End Run000.

Section Run001.
Context {B : Bubbles}.
Import Part001.

Lemma entryOf_agents_are_001 (m : model) (msg : Msg) :
  filter (fun e => negb (isUser e)) (entryOf m msg) = agentEntry msg.
Proof.
  destruct msg as [w h|s|s|s|k|e|t]; simpl; try reflexivity.
  now destruct (tea.Type_ k).
Qed.

Lemma entries_agents_are_001 (msgs : list Msg) (m : model) :
  filter (fun e => negb (isUser e)) (entries m msgs) = flat_map agentEntry msgs.
Proof.
  revert m; induction msgs as [|msg msgs IH]; intros m; [reflexivity|].
  simpl. now rewrite filter_app, IH, entryOf_agents_are_001.
Qed.

Lemma entries_ask_001 (results : list Result) (m : model) :
  entries m (ask results) = flat_map resultEntry001 results.
Proof.
  revert m; induction results as [|r rs IH]; intros m; [reflexivity|].
  destruct r; simpl; now rewrite IH.
Qed.

Lemma step_asked_001 (m : model) (msg : Msg) :
  flat_map (fun e => match e with GoAsk q => [q] | Println _ => [] end)
    (snd (Update m msg))
  = map text (filter isUser (entryOf m msg)).
Proof.
  unfold Update, entryOf.
  destruct (textarea_Update (textarea m) msg) as [ta tiCmd].
  destruct (viewport_Update _ msg) as [vp vpCmd].
  destruct msg as [w h|s|s|s|k|e|t]; simpl; try reflexivity.
  now destruct (tea.Type_ k).
Qed.

Lemma asked_entries_001 (msgs : list Msg) (m : model) :
  asked m msgs = map text (filter isUser (entries m msgs)).
Proof.
  revert m; induction msgs as [|msg msgs IH]; intros m; [reflexivity|].
  simpl. now rewrite filter_app, map_app, IH, step_asked_001.
Qed.

Lemma entries_users_001 (msgs : list Msg) (m : model) :
  List.length (filter isUser (entries m msgs)) = count isSubmit msgs.
Proof.
  revert m; induction msgs as [|msg msgs IH]; intros m; [reflexivity|].
  simpl. rewrite filter_app, length_app, IH. unfold count; simpl.
  destruct msg as [w h|s|s|s|k|e|t]; simpl; try reflexivity.
  now destruct (tea.Type_ k).
Qed.

Lemma step_err_001 (m : model) (msg : Msg) :
  err (step m msg) = match msg with errMsg e => Some e | _ => err m end.
Proof.
  unfold step, Update.
  destruct (textarea_Update (textarea m) msg) as [ta tiCmd].
  destruct (viewport_Update _ msg) as [vp vpCmd].
  destruct msg as [w h|s|s|s|k|e|t]; simpl; try reflexivity.
  - now destruct (0 <? _).
  - now destruct (tea.Type_ k).
Qed.

Lemma run_err_001 (msgs : list Msg) (m : model) :
  err (run m msgs) = lastErr (err m) msgs.
Proof.
  revert m; induction msgs as [|msg msgs IH]; intros m; [reflexivity|].
  unfold run in *; simpl. rewrite IH, step_err_001. now destruct msg.
Qed.

Lemma step_quit_001 (m : model) (msg : Msg) :
  snd (fst (Update m msg)) = tea.Quit <-> isQuit msg = true.
Proof.
  unfold Update.
  destruct (textarea_Update (textarea m) msg) as [ta tiCmd].
  destruct (viewport_Update _ msg) as [vp vpCmd].
  destruct msg as [w h|s|s|s|k|e|t]; simpl;
    try (split; discriminate).
  destruct (tea.Type_ k); simpl; split; try discriminate; reflexivity.
Qed.

Lemma InsertNewline_step_001 (K : KeyMapKept B) (m : model) (msg : Msg) :
  textarea.InsertNewline (textarea (step m msg))
  = textarea.InsertNewline (textarea m).
Proof.
  pose proof (K (textarea m) msg) as HU.
  unfold step, Update.
  destruct (textarea_Update (textarea m) msg) as [ta tiCmd].
  destruct (viewport_Update _ msg) as [vp vpCmd]. simpl in HU.
  destruct msg as [w h|s|s|s|k|e|t]; simpl; try exact HU.
  - now destruct (0 <? _).
  - destruct (tea.Type_ k); simpl; try exact HU.
    now rewrite InsertString_InsertNewline.
Qed.

Lemma InsertNewline_run_001 (K : KeyMapKept B) (msgs : list Msg)
  (m : model) :
  textarea.InsertNewline (textarea (run m msgs))
  = textarea.InsertNewline (textarea m).
Proof.
  revert m; induction msgs as [|msg msgs IH]; intros m; [reflexivity|].
  unfold run in *; simpl. now rewrite IH, InsertNewline_step_001.
Qed.

End Run001.

(** ** The run as a whole *)

(** X1.  Whatever else is delivered in between, the agent entries of
    the transcript are those of the agent events delivered, one each and
    in the order of delivery; in both variants. *)
Theorem agent_entries_in_delivery_order :
  forall (B : Bubbles) (msgs : list Msg)
         (m0 : Part000.model) (m1 : Part001.model),
    (Part000.messages (Part000.run m0 msgs)
     = (Part000.messages m0
        ++ map Part000.show (Part000.entries m0 msgs))%list
     /\ filter (fun e => negb (isUser e)) (Part000.entries m0 msgs)
        = flat_map agentEntry msgs)
    /\
    (Part001.messages (Part001.run m1 msgs)
     = (Part001.messages m1
        ++ flat_map (Part001.show m1) (Part001.entries m1 msgs))%list
     /\ filter (fun e => negb (isUser e)) (Part001.entries m1 msgs)
        = flat_map agentEntry msgs).
Proof.
  intros B msgs m0 m1. repeat split.
  - apply run_messages_000.
  - apply entries_agents_are_000.
  - apply run_messages_001.
  - apply entries_agents_are_001.
Qed.

(** X2.  What the goroutine of [ask] forwards for a stream of results,
    delivered to [Update] in order, adds to the transcript one entry per
    message, reasoning and function-call result, in stream order, and
    nothing for a result of another type; part_001 adds a newline to
    each text. *)
Theorem ask_results_reach_transcript :
  forall (B : Bubbles) (results : list Result)
         (m0 : Part000.model) (m1 : Part001.model),
    Part000.messages (Part000.run m0 (Part000.ask results))
    = (Part000.messages m0
       ++ map Part000.show (flat_map resultEntry000 results))%list
    /\ Part001.messages (Part001.run m1 (Part001.ask results))
       = (Part001.messages m1
          ++ flat_map (Part001.show m1)
               (flat_map resultEntry001 results))%list.
Proof.
  intros B results m0 m1. split.
  - now rewrite run_messages_000, entries_ask_000.
  - now rewrite run_messages_001, entries_ask_001.
Qed.

(** X3.  Along any run the questions handed to [ask] are, in order, the
    texts of the user entries of the transcript, one per Enter key: no
    question is asked without its entry, and no entry is made without
    its question. *)
Theorem questions_are_user_entries :
  forall (B : Bubbles) (msgs : list Msg)
         (m0 : Part000.model) (m1 : Part001.model),
    (Part000.asked m0 msgs
     = map text (filter isUser (Part000.entries m0 msgs))
     /\ List.length (Part000.asked m0 msgs) = count isSubmit msgs)
    /\
    (Part001.asked m1 msgs
     = map text (filter isUser (Part001.entries m1 msgs))
     /\ List.length (Part001.asked m1 msgs) = count isSubmit msgs).
Proof.
  intros B msgs m0 m1. split; split.
  - apply asked_entries_000.
  - rewrite asked_entries_000, length_map. apply entries_users_000.
  - apply asked_entries_001.
  - rewrite asked_entries_001, length_map. apply entries_users_001.
Qed.

(** X4.  The [err] field holds the last [errMsg] delivered, or what it
    held before when none was; no other message sets or clears it. *)
Theorem err_is_last_error :
  forall (B : Bubbles) (msgs : list Msg)
         (m0 : Part000.model) (m1 : Part001.model),
    Part000.err (Part000.run m0 msgs) = lastErr (Part000.err m0) msgs
    /\ Part001.err (Part001.run m1 msgs) = lastErr (Part001.err m1) msgs.
Proof.
  intros B msgs m0 m1. split; [apply run_err_000 | apply run_err_001].
Qed.

(** ** Single steps *)


Lemma SetContent_Height (s : string) (v : viewport.Model) :
  viewport.Height (viewport.SetContent s v) = viewport.Height v.
Proof.
  unfold viewport.SetContent. simpl. now destruct (_ <? _).
Qed.

Lemma GotoBottom_at_bottom (v : viewport.Model) :
  viewport.YOffset (viewport.GotoBottom v)
  = viewport.maxYOffset (viewport.GotoBottom v).
Proof. reflexivity. Qed.

Lemma messages_nonempty (A : Type) (l : list A) :
  (0 <? Z.of_nat (List.length l)) = negb (match l with [] => true | _ => false end).
Proof. destruct l; [reflexivity|]. simpl List.length. simpl negb. apply Z.ltb_lt. lia. Qed.

Section Steps000.
Context {B : Bubbles}.
Import Part000.

Lemma quit_step_000 (m : model) (msg : Msg) :
  isQuit msg = true ->
  snd (Update m msg)
  = [Println (textarea.Value (fst (textarea_Update (textarea m) msg)))]
  /\ messages (step m msg) = messages m
  /\ textarea (step m msg) = fst (textarea_Update (textarea m) msg).
Proof.
  unfold step, Update.
  destruct (textarea_Update (textarea m) msg) as [ta tiCmd].
  destruct (viewport_Update _ msg) as [vp vpCmd].
  destruct msg as [w h|s|s|s|k|e|t]; simpl; try discriminate.
  destruct (tea.Type_ k); simpl; try discriminate; now repeat split.
Qed.

Lemma resize_step_000 (m : model) (w h : Z) :
  let msg := WindowSizeMsg w h in
  let m' := step m msg in
  textarea.Height (fst (textarea_Update (textarea m) msg)) + 3 <= h ->
  viewport.Width (viewport m') = w
  /\ 0 <= viewport.Height (viewport m')
  /\ viewport.Height (viewport m') + textarea.Height (textarea m') + 3 = h
  /\ viewport.YOffset (viewport m') = viewport.maxYOffset (viewport m')
  /\ messages m' = messages m
  /\ (messages m <> [] ->
      viewport.lines (viewport m') = shownLines (renderText (messages m) w))
  /\ (messages m = [] ->
      viewport.lines (viewport m')
      = viewport.lines (fst (viewport_Update (viewport m) msg))).
Proof.
  intros msg m'. subst m' msg. unfold step, Update.
  destruct (textarea_Update (textarea m) (WindowSizeMsg w h)) as [ta tiCmd].
  destruct (viewport_Update _ (WindowSizeMsg w h)) as [vp vpCmd].
  cbn [fst snd set_textarea set_viewport messages viewport textarea].
  rewrite messages_nonempty.
  change (lipgloss.Height gap) with 3.
  unfold textarea.Height. intros Hfits.
  destruct (messages m) as [|x l] eqn:Hm; cbn [negb].
  - cbn. repeat split; try lia; try reflexivity; try assumption;
      try (intros H; now destruct H).
  - unfold render.
    cbn [set_viewport messages viewport textarea textarea.Height
           textarea.SetWidth textarea.width textarea.height].
    split; [cbn [viewport.GotoBottom viewport.Width];
            now rewrite SetContent_Width|].
    split; [cbn [viewport.GotoBottom viewport.Height];
            rewrite SetContent_Height; cbn; lia|].
    split; [cbn [viewport.GotoBottom viewport.Height];
            rewrite SetContent_Height; cbn; lia|].
    split; [apply GotoBottom_at_bottom|].
    split; [exact Hm|].
    split; [|discriminate].
    intros _. cbn [viewport.GotoBottom viewport.lines].
    rewrite SetContent_lines. unfold shownLines.
    cbn [set_viewport set_textarea messages viewport viewport.set_Height
           viewport.set_Width viewport.Width].
    now rewrite Hm.
Qed.

(** After an agent event or a submission the display is the render of
    the new transcript, scrolled to its end. *)
Lemma display_step_000 (m : model) (msg : Msg) :
  (isSubmit msg || isAgentEvent msg)%bool = true ->
  let m' := step m msg in
  viewport.lines (viewport m')
  = shownLines (renderText (messages m') (viewport.Width (viewport m')))
  /\ viewport.YOffset (viewport m') = viewport.maxYOffset (viewport m').
Proof.
  intros Hmsg m'. subst m'. unfold step, Update.
  destruct (textarea_Update (textarea m) msg) as [ta tiCmd].
  destruct (viewport_Update _ msg) as [vp vpCmd].
  assert (Hlines : forall s v,
             viewport.lines (viewport.GotoBottom (viewport.SetContent s v))
             = shownLines s)
    by (intros; unfold viewport.GotoBottom; simpl; apply SetContent_lines).
  assert (Hwidth : forall s v,
             viewport.Width (viewport.GotoBottom (viewport.SetContent s v))
             = viewport.Width v)
    by (intros; unfold viewport.GotoBottom; simpl; apply SetContent_Width).
  destruct msg as [w h|s|s|s|k|e|t]; simpl in Hmsg; try discriminate;
    try destruct (tea.Type_ k); try discriminate;
    unfold appendAgent, render;
    cbn [fst snd set_viewport set_messages set_textarea viewport messages];
    rewrite Hlines, Hwidth; now split.
Qed.

Lemma ctrlJ_step_000 (m : model) (k : tea.Key) :
  tea.Type_ k = tea.KeyCtrlJ ->
  let ta := fst (textarea_Update (textarea m) (KeyMsg k)) in
  snd (Update m (KeyMsg k)) = []
  /\ messages (step m (KeyMsg k)) = messages m
  /\ textarea (step m (KeyMsg k))
     = textarea.InsertString StringWidth Str.nl ta.
Proof.
  intros Hk. unfold step, Update.
  destruct (textarea_Update (textarea m) (KeyMsg k)) as [ta tiCmd].
  destruct (viewport_Update _ (KeyMsg k)) as [vp vpCmd].
  rewrite Hk. now repeat split.
Qed.

End Steps000.

Section Steps001.
Context {B : Bubbles}.
Import Part001.

Lemma quit_step_001 (m : model) (msg : Msg) :
  isQuit msg = true ->
  snd (Update m msg)
  = [Println (textarea.Value (fst (textarea_Update (textarea m) msg)))]
  /\ messages (step m msg) = messages m
  /\ textarea (step m msg) = fst (textarea_Update (textarea m) msg).
Proof.
  unfold step, Update.
  destruct (textarea_Update (textarea m) msg) as [ta tiCmd].
  destruct (viewport_Update _ msg) as [vp vpCmd].
  destruct msg as [w h|s|s|s|k|e|t]; simpl; try discriminate.
  destruct (tea.Type_ k); simpl; try discriminate; now repeat split.
Qed.

Lemma resize_step_001 (m : model) (w h : Z) :
  let msg := WindowSizeMsg w h in
  let m' := step m msg in
  textarea.Height (fst (textarea_Update (textarea m) msg)) + 3 <= h ->
  viewport.Width (viewport m') = w
  /\ 0 <= viewport.Height (viewport m')
  /\ viewport.Height (viewport m') + textarea.Height (textarea m') + 3 = h
  /\ viewport.YOffset (viewport m') = viewport.maxYOffset (viewport m')
  /\ messages m' = messages m
  /\ (messages m <> [] ->
      viewport.lines (viewport m') = shownLines (renderText (messages m) w))
  /\ (messages m = [] ->
      viewport.lines (viewport m')
      = viewport.lines (fst (viewport_Update (viewport m) msg))).
Proof.
  intros msg m'. subst m' msg. unfold step, Update.
  destruct (textarea_Update (textarea m) (WindowSizeMsg w h)) as [ta tiCmd].
  destruct (viewport_Update _ (WindowSizeMsg w h)) as [vp vpCmd].
  cbn [fst snd set_textarea set_viewport messages viewport textarea].
  rewrite messages_nonempty.
  change (lipgloss.Height gap) with 3.
  unfold textarea.Height. intros Hfits.
  destruct (messages m) as [|x l] eqn:Hm; cbn [negb].
  - cbn. repeat split; try lia; try reflexivity; try assumption;
      try (intros H; now destruct H).
  - unfold render.
    cbn [set_viewport messages viewport textarea textarea.Height
           textarea.SetWidth textarea.width textarea.height].
    split; [cbn [viewport.GotoBottom viewport.Width];
            now rewrite SetContent_Width|].
    split; [cbn [viewport.GotoBottom viewport.Height];
            rewrite SetContent_Height; cbn; lia|].
    split; [cbn [viewport.GotoBottom viewport.Height];
            rewrite SetContent_Height; cbn; lia|].
    split; [apply GotoBottom_at_bottom|].
    split; [exact Hm|].
    split; [|discriminate].
    intros _. cbn [viewport.GotoBottom viewport.lines].
    rewrite SetContent_lines. unfold shownLines.
    cbn [set_viewport set_textarea messages viewport viewport.set_Height
           viewport.set_Width viewport.Width].
    now rewrite Hm.
Qed.

Lemma display_step_001 (m : model) (msg : Msg) :
  (isSubmit msg || isAgentEvent msg)%bool = true ->
  let m' := step m msg in
  viewport.lines (viewport m')
  = shownLines (renderText (messages m') (viewport.Width (viewport m')))
  /\ viewport.YOffset (viewport m') = viewport.maxYOffset (viewport m').
Proof.
  intros Hmsg m'. subst m'. unfold step, Update.
  destruct (textarea_Update (textarea m) msg) as [ta tiCmd].
  destruct (viewport_Update _ msg) as [vp vpCmd].
  assert (Hlines : forall s v,
             viewport.lines (viewport.GotoBottom (viewport.SetContent s v))
             = shownLines s)
    by (intros; unfold viewport.GotoBottom; simpl; apply SetContent_lines).
  assert (Hwidth : forall s v,
             viewport.Width (viewport.GotoBottom (viewport.SetContent s v))
             = viewport.Width v)
    by (intros; unfold viewport.GotoBottom; simpl; apply SetContent_Width).
  destruct msg as [w h|s|s|s|k|e|t]; simpl in Hmsg; try discriminate;
    try destruct (tea.Type_ k); try discriminate;
    unfold appendAgent, render;
    cbn [fst snd set_viewport set_messages set_textarea viewport messages];
    rewrite Hlines, Hwidth; now split.
Qed.

Lemma ctrlJ_step_001 (m : model) (k : tea.Key) :
  tea.Type_ k = tea.KeyCtrlJ ->
  let ta := fst (textarea_Update (textarea m) (KeyMsg k)) in
  snd (Update m (KeyMsg k)) = []
  /\ messages (step m (KeyMsg k)) = messages m
  /\ textarea (step m (KeyMsg k))
     = textarea.InsertString StringWidth Str.nl ta.
Proof.
  intros Hk. unfold step, Update.
  destruct (textarea_Update (textarea m) (KeyMsg k)) as [ta tiCmd].
  destruct (viewport_Update _ (KeyMsg k)) as [vp vpCmd].
  rewrite Hk. now repeat split.
Qed.

End Steps001.

(** A newline put into a box of fewer rows than a box takes: nothing
    when the box is full, the newline at the cursor otherwise. *)
Lemma InsertString_nl (w : string -> Z) (ta : textarea.Model) :
  Z.of_nat (List.length (textarea.rows ta)) < textarea.maxHeight ->
  textarea.Value (textarea.InsertString w Str.nl ta)
  = if (0 <? textarea.CharLimit ta)
       && (textarea.CharLimit ta <=? textarea.Length w ta)
    then textarea.Value ta
    else Str.take (textarea.col ta) (textarea.Value ta)
         ++ Str.nl ++ Str.drop (textarea.col ta) (textarea.Value ta).
Proof.
  intros Hrows.
  unfold textarea.InsertString, textarea.Value.
  assert (Hnl : Str.splitLines Str.nl = [EmptyString; EmptyString])
    by reflexivity.
  assert (Hcap : (textarea.maxHeight
                  <? Z.of_nat (List.length (textarea.rows ta))
                     + Z.of_nat (List.length [EmptyString; EmptyString]) - 1)
                 = false)
    by (apply Z.ltb_ge; simpl List.length; lia).
  destruct (0 <? textarea.CharLimit ta); cbn [andb].
  - destruct (Z.leb_spec
                (textarea.CharLimit ta - textarea.Length w ta) 0)
      as [Hfull|Hroom].
    + replace (textarea.CharLimit ta <=? textarea.Length w ta) with true
        by (symmetry; apply Z.leb_le; lia).
      reflexivity.
    + replace (textarea.CharLimit ta <=? textarea.Length w ta) with false
        by (symmetry; apply Z.leb_gt; lia).
      destruct (Z.to_nat (textarea.CharLimit ta - textarea.Length w ta))
        as [|n] eqn:Hn; [lia|].
      replace (Str.takeRunes (S n) Str.nl) with Str.nl
        by (unfold Str.nl; cbn; now destruct n).
      rewrite Hnl, Hcap. reflexivity.
  - rewrite Hnl, Hcap. reflexivity.
Qed.

(** X5.  [Update] asks the program to quit for Ctrl+C and Esc and for
    nothing else; on these keys it prints what the input box holds,
    starts no question and leaves the transcript alone. *)
Theorem quit_prints_input :
  forall (B : Bubbles) (msg : Msg) (m0 : Part000.model) (m1 : Part001.model),
    ((snd (fst (Part000.Update m0 msg)) = tea.Quit <-> isQuit msg = true)
     /\ (isQuit msg = true ->
         snd (Part000.Update m0 msg)
         = [Println (textarea.Value
                       (fst (textarea_Update (Part000.textarea m0) msg)))]
         /\ Part000.messages (Part000.step m0 msg) = Part000.messages m0
         /\ Part000.textarea (Part000.step m0 msg)
            = fst (textarea_Update (Part000.textarea m0) msg)))
    /\
    ((snd (fst (Part001.Update m1 msg)) = tea.Quit <-> isQuit msg = true)
     /\ (isQuit msg = true ->
         snd (Part001.Update m1 msg)
         = [Println (textarea.Value
                       (fst (textarea_Update (Part001.textarea m1) msg)))]
         /\ Part001.messages (Part001.step m1 msg) = Part001.messages m1
         /\ Part001.textarea (Part001.step m1 msg)
            = fst (textarea_Update (Part001.textarea m1) msg))).
Proof.
  intros B msg m0 m1. split; split.
  - apply step_quit_000.
  - apply quit_step_000.
  - apply step_quit_001.
  - apply quit_step_001.
Qed.

(** X5, run: Ctrl+C with [draft] in the box. *)
Lemma quit_prints_input_witness :
  snd (Part000.Update (B:=plainBubbles)
         (Part000.run (B:=plainBubbles)
            (Part000.initialModel (B:=plainBubbles)) [type "draft"])
         (key tea.KeyCtrlC))
  = [Println "draft"].
Proof.
  exact (proj1
           (proj2 (proj1
              (quit_prints_input plainBubbles (key tea.KeyCtrlC)
                 (Part000.run (B:=plainBubbles)
                    (Part000.initialModel (B:=plainBubbles)) [type "draft"])
                 (Part001.initialModel (B:=plainBubbles))))
              eq_refl)).
Defined.

(** X6.  A window resize that leaves the viewport a height of zero or
    more (the window being at least as high as the input box and the
    three lines counted for the gap) sets the viewport to the window's
    width and to the window's height less the box's height and those
    three lines; it scrolls to the end and adds nothing to the
    transcript.  The display is rendered anew at the new width when the
    transcript has entries, and is left as it was (the welcome text)
    when it has none. *)
Theorem resize_reflows :
  forall (B : Bubbles) (w h : Z) (m0 : Part000.model) (m1 : Part001.model),
    (let m' := Part000.step m0 (WindowSizeMsg w h) in
     textarea.Height
       (fst (textarea_Update (Part000.textarea m0) (WindowSizeMsg w h)))
     + 3 <= h ->
     viewport.Width (Part000.viewport m') = w
     /\ 0 <= viewport.Height (Part000.viewport m')
     /\ viewport.Height (Part000.viewport m')
        + textarea.Height (Part000.textarea m') + 3 = h
     /\ viewport.YOffset (Part000.viewport m')
        = viewport.maxYOffset (Part000.viewport m')
     /\ Part000.messages m' = Part000.messages m0
     /\ (Part000.messages m0 <> [] ->
         viewport.lines (Part000.viewport m')
         = shownLines (Part000.renderText (Part000.messages m0) w))
     /\ (Part000.messages m0 = [] ->
         viewport.lines (Part000.viewport m')
         = viewport.lines
             (fst (viewport_Update (Part000.viewport m0)
                     (WindowSizeMsg w h)))))
    /\
    (let m' := Part001.step m1 (WindowSizeMsg w h) in
     textarea.Height
       (fst (textarea_Update (Part001.textarea m1) (WindowSizeMsg w h)))
     + 3 <= h ->
     viewport.Width (Part001.viewport m') = w
     /\ 0 <= viewport.Height (Part001.viewport m')
     /\ viewport.Height (Part001.viewport m')
        + textarea.Height (Part001.textarea m') + 3 = h
     /\ viewport.YOffset (Part001.viewport m')
        = viewport.maxYOffset (Part001.viewport m')
     /\ Part001.messages m' = Part001.messages m1
     /\ (Part001.messages m1 <> [] ->
         viewport.lines (Part001.viewport m')
         = shownLines (Part001.renderText (Part001.messages m1) w))
     /\ (Part001.messages m1 = [] ->
         viewport.lines (Part001.viewport m')
         = viewport.lines
             (fst (viewport_Update (Part001.viewport m1)
                     (WindowSizeMsg w h))))).
Proof.
  intros B w h m0 m1. split.
  - apply resize_step_000.
  - apply resize_step_001.
Qed.

(** X6, run: a resize to 80 by 24 before anything was said keeps the
    two lines of the welcome text, in a viewport of 18 lines. *)
Lemma resize_reflows_witness :
  viewport.Height
    (Part000.viewport
       (Part000.step (B:=plainBubbles)
          (Part000.initialModel (B:=plainBubbles)) (WindowSizeMsg 80 24)))
  = 18
  /\ viewport.lines
       (Part000.viewport
          (Part000.step (B:=plainBubbles)
             (Part000.initialModel (B:=plainBubbles)) (WindowSizeMsg 80 24)))
     = ["Welcome to ore-no-agent!";
        "Type a message and press Enter to send."].
Proof.
  assert (Hfits : textarea.Height
                    (fst (textarea_Update (Bubbles:=plainBubbles)
                            (Part000.textarea
                               (Part000.initialModel (B:=plainBubbles)))
                            (WindowSizeMsg 80 24)))
                  + 3 <= 24) by (vm_compute; discriminate).
  destruct (proj1 (resize_reflows plainBubbles 80 24
                     (Part000.initialModel (B:=plainBubbles))
                     (Part001.initialModel (B:=plainBubbles))) Hfits)
    as (_ & _ & Hheight & _ & _ & _ & Hlines).
  split.
  - vm_compute in Hheight |- *. reflexivity.
  - exact (Hlines eq_refl).
Defined.

(** X7.  After every submission and every agent event the display is
    the render of the transcript as it now is, at the viewport's width,
    and the viewport is scrolled to its end. *)
Theorem display_follows_transcript :
  forall (B : Bubbles) (msg : Msg) (m0 : Part000.model) (m1 : Part001.model),
    (isSubmit msg || isAgentEvent msg)%bool = true ->
    (let m' := Part000.step m0 msg in
     viewport.lines (Part000.viewport m')
     = shownLines
         (Part000.renderText (Part000.messages m')
            (viewport.Width (Part000.viewport m')))
     /\ viewport.YOffset (Part000.viewport m')
        = viewport.maxYOffset (Part000.viewport m'))
    /\
    (let m' := Part001.step m1 msg in
     viewport.lines (Part001.viewport m')
     = shownLines
         (Part001.renderText (Part001.messages m')
            (viewport.Width (Part001.viewport m')))
     /\ viewport.YOffset (Part001.viewport m')
        = viewport.maxYOffset (Part001.viewport m')).
Proof.
  intros B msg m0 m1 Hmsg. split.
  - now apply display_step_000.
  - now apply display_step_001.
Qed.

(** X7, run: an answer arriving on the test terminal. *)
Lemma display_follows_transcript_witness :
  viewport.lines
    (Part001.viewport
       (Part001.step (B:=plainBubbles)
          (Part001.initialModel (B:=plainBubbles)) (answerMessage "yes")))
  = ["Agent"; "yes"].
Proof.
  exact (proj1 (proj2
           (display_follows_transcript plainBubbles (answerMessage "yes")
              (Part000.initialModel (B:=plainBubbles))
              (Part001.initialModel (B:=plainBubbles)) eq_refl))).
Defined.

(** X8.  Ctrl+J never submits: it starts no question and adds nothing
    to the transcript.  In a box of fewer than 99 rows it puts a newline
    at the cursor, unless the box's [Length()], its display cells and
    newlines, has reached the limit, when the text is left as it is. *)
Theorem ctrlJ_inserts_newline :
  forall (B : Bubbles) (k : tea.Key) (m0 : Part000.model) (m1 : Part001.model),
    tea.Type_ k = tea.KeyCtrlJ ->
    (let ta := fst (textarea_Update (Part000.textarea m0) (KeyMsg k)) in
     snd (Part000.Update m0 (KeyMsg k)) = []
     /\ Part000.messages (Part000.step m0 (KeyMsg k)) = Part000.messages m0
     /\ (Z.of_nat (List.length (textarea.rows ta)) < textarea.maxHeight ->
         textarea.Value (Part000.textarea (Part000.step m0 (KeyMsg k)))
         = if (0 <? textarea.CharLimit ta)
              && (textarea.CharLimit ta <=? textarea.Length StringWidth ta)
           then textarea.Value ta
           else Str.take (textarea.col ta) (textarea.Value ta)
                ++ Str.nl ++ Str.drop (textarea.col ta) (textarea.Value ta)))
    /\
    (let ta := fst (textarea_Update (Part001.textarea m1) (KeyMsg k)) in
     snd (Part001.Update m1 (KeyMsg k)) = []
     /\ Part001.messages (Part001.step m1 (KeyMsg k)) = Part001.messages m1
     /\ (Z.of_nat (List.length (textarea.rows ta)) < textarea.maxHeight ->
         textarea.Value (Part001.textarea (Part001.step m1 (KeyMsg k)))
         = if (0 <? textarea.CharLimit ta)
              && (textarea.CharLimit ta <=? textarea.Length StringWidth ta)
           then textarea.Value ta
           else Str.take (textarea.col ta) (textarea.Value ta)
                ++ Str.nl ++ Str.drop (textarea.col ta) (textarea.Value ta))).
Proof.
  intros B k m0 m1 Hk. split.
  - destruct (ctrlJ_step_000 m0 k Hk) as (He & Hm & Ht).
    repeat split; [exact He | exact Hm |]. rewrite Ht.
    apply InsertString_nl.
  - destruct (ctrlJ_step_001 m1 k Hk) as (He & Hm & Ht).
    repeat split; [exact He | exact Hm |]. rewrite Ht.
    apply InsertString_nl.
Qed.

(** X8, run: Ctrl+J after 140 letters [è] were typed, 280 bytes in 140
    cells: the newline goes in. *)
Lemma ctrlJ_inserts_newline_witness :
  textarea.Value
    (Part000.textarea
       (Part000.run (B:=plainBubbles) (Part000.initialModel (B:=plainBubbles))
          [type (Str.Repeat eGrave 140); key tea.KeyCtrlJ]))
  = Str.Repeat eGrave 140 ++ Str.nl.
Proof.
  etransitivity.
  - apply (proj2 (proj2 (proj1
             (ctrlJ_inserts_newline plainBubbles
                (tea.mkKey tea.KeyCtrlJ "" false)
                (Part000.run (B:=plainBubbles)
                   (Part000.initialModel (B:=plainBubbles))
                   [type (Str.Repeat eGrave 140)])
                (Part001.initialModel (B:=plainBubbles)) eq_refl)))).
    vm_compute. reflexivity.
  - vm_compute. reflexivity.
Defined.

(** X9.  In part_000 the display text is built entry by entry: the
    render of two lists of messages one after the other is the render
    of the first followed by the render of the second, each message
    giving its own bordered block whatever the others are. *)
Theorem render_is_blockwise :
  forall (B : Bubbles) (a b : list string) (x : string) (w : Z),
    Part000.renderText (a ++ b) w
    = Part000.renderText a w ++ Part000.renderText b w
    /\ Part000.renderText [] w = EmptyString
    /\ Part000.renderText [x] w
       = Render Part000.entryStyle
           (Render (lipgloss.Width w lipgloss.NewStyle) x).
Proof.
  intros B a b x w. split; [apply renderText_app_000|]. split; reflexivity.
Qed.

(** X10.  No run of messages switches newline insertion back on (the
    textarea's [Update] keeping the key map), so on every state the
    program reaches the Enter key, which the textarea then leaves the
    text alone on, sends exactly what the input box shows (part_001:
    with its newline) and empties the box. *)
Theorem submit_on_reachable_state :
  forall (B : Bubbles) (K : KeyMapKept B) (L : EnterLeavesText B)
         (msgs : list Msg) (k : tea.Key),
    tea.Type_ k = tea.KeyEnter -> tea.Runes k = EmptyString ->
    (let m := Part000.run Part000.initialModel msgs in
     textarea.InsertNewline (Part000.textarea m) = false
     /\ snd (Part000.Update m (KeyMsg k))
        = [GoAsk (textarea.Value (Part000.textarea m))]
     /\ textarea.Value (Part000.textarea (Part000.step m (KeyMsg k)))
        = EmptyString)
    /\
    (let m := Part001.run Part001.initialModel msgs in
     textarea.InsertNewline (Part001.textarea m) = false
     /\ snd (Part001.Update m (KeyMsg k))
        = [GoAsk (textarea.Value (Part001.textarea m) ++ Str.nl)]
     /\ textarea.Value (Part001.textarea (Part001.step m (KeyMsg k)))
        = EmptyString).
Proof.
  intros B K L msgs k Hk Hr. split.
  - assert (Hoff : textarea.InsertNewline
                     (Part000.textarea
                        (Part000.run Part000.initialModel msgs)) = false)
      by (now rewrite InsertNewline_run_000).
    destruct (Update_enter_000 (Part000.run Part000.initialModel msgs) k Hk)
      as (_ & Hv & He).
    unfold textarea.Value in He. rewrite (L _ _ Hk Hr Hoff) in He.
    repeat split; assumption.
  - assert (Hoff : textarea.InsertNewline
                     (Part001.textarea
                        (Part001.run Part001.initialModel msgs)) = false)
      by (now rewrite InsertNewline_run_001).
    destruct (Update_enter_001 (Part001.run Part001.initialModel msgs) k Hk)
      as (_ & Hv & He).
    unfold textarea.Value in He. rewrite (L _ _ Hk Hr Hoff) in He.
    repeat split; assumption.
Qed.

(** X10, run: a first question sent, a second typed and sent. *)
Lemma submit_on_reachable_state_witness :
  snd (Part000.Update (B:=plainBubbles)
         (Part000.run (B:=plainBubbles)
            (Part000.initialModel (B:=plainBubbles))
            [type "one"; key tea.KeyEnter; type "two"])
         (key tea.KeyEnter))
  = [GoAsk "two"].
Proof.
  exact (proj1 (proj2 (proj1
           (submit_on_reachable_state plainBubbles plainBubbles_keymap
              plainBubbles_enter
              [type "one"; key tea.KeyEnter; type "two"]
              (tea.mkKey tea.KeyEnter "" false) eq_refl eq_refl)))).
Defined.

(** * Further properties of the tool handlers *)

(** X11.  [WebReader] panics exactly when the argument decodes without
    error and [http.NewRequest] refuses the decoded URL; in every other
    case it returns a string. *)
Theorem WebReader_panics_iff :
  forall (W : Registry.World) (ua args : string),
    Registry.isPanic (fst (Registry.WebReader_as ua args)) = true
    <-> (snd (Json.Unmarshal args "Url" "") = None
         /\ exists e,
             Registry.NewRequest "GET" (fst (Json.Unmarshal args "Url" ""))
             = inl e).
Proof.
  intros W ua args. unfold Registry.WebReader_as.
  destruct (Json.Unmarshal args "Url" "") as [url [e|]]; simpl.
  - split; [discriminate | intros [H _]; discriminate].
  - destruct (Registry.NewRequest "GET" url) as [e|r]; simpl.
    + split; [intros _; split; [reflexivity | now exists e] | reflexivity].
    + destruct (Registry.Do _) as [e|body]; simpl;
        [|destruct (Registry.ReadAll body); simpl];
        (split; [discriminate | intros [_ [e' He']]; discriminate]).
Qed.

(** X12.  When the argument decodes, the URL is accepted, the request
    is answered and the body is read, [WebReader] returns the body as
    it is; it has sent one request, a GET of the decoded URL as
    [http.NewRequest] built it with the handler's User-Agent set, and
    read one body. *)
Theorem WebReader_returns_body :
  forall (W : Registry.World) (ua args url body : string)
         (r : Registry.Request) (b : Z),
    Json.Unmarshal args "Url" "" = (url, None) ->
    Registry.NewRequest "GET" url = inr r ->
    Registry.Do (Registry.Header_Set "User-Agent" ua r) = inr b ->
    Registry.ReadAll b = inr body ->
    Registry.WebReader_as ua args
    = (Registry.Returned body,
       [Registry.Sent (Registry.Header_Set "User-Agent" ua r);
        Registry.BodyRead b]).
Proof.
  intros W ua args url body r b Hargs Hreq Hdo Hread.
  unfold Registry.WebReader_as. rewrite Hargs, Hreq. simpl.
  rewrite Hdo. simpl. now rewrite Hread.
Qed.

(** X12, run: the page whose body is [hello]. *)
Lemma WebReader_returns_body_witness :
  fst (Registry.WebReader (W:=Registry.onePage)
         (Json.object1 "url" "http://a.example/"))
  = Registry.Returned "hello".
Proof.
  unfold Registry.WebReader.
  rewrite (WebReader_returns_body Registry.onePage _
             (Json.object1 "url" "http://a.example/") "http://a.example/"
             "hello" (Registry.mkRequest "GET" "http://a.example/" []) 1
             eq_refl eq_refl eq_refl eq_refl).
  reflexivity.
Defined.

(** X13.  Every failure [WebReader] checks for comes back as the
    error's message: a decoding error before anything is sent, a
    transport error after the one request and without a body being
    read, a read error after the body was asked for. *)
Theorem WebReader_failures_are_strings :
  forall (W : Registry.World) (ua args : string),
    (forall url e,
        Json.Unmarshal args "Url" "" = (url, Some e) ->
        Registry.WebReader_as ua args = (Registry.Returned (Error e), []))
    /\ (forall url r e,
           Json.Unmarshal args "Url" "" = (url, None) ->
           Registry.NewRequest "GET" url = inr r ->
           Registry.Do (Registry.Header_Set "User-Agent" ua r) = inl e ->
           Registry.WebReader_as ua args
           = (Registry.Returned (Error e),
              [Registry.Sent (Registry.Header_Set "User-Agent" ua r)]))
    /\ (forall url r b e,
           Json.Unmarshal args "Url" "" = (url, None) ->
           Registry.NewRequest "GET" url = inr r ->
           Registry.Do (Registry.Header_Set "User-Agent" ua r) = inr b ->
           Registry.ReadAll b = inl e ->
           Registry.WebReader_as ua args
           = (Registry.Returned (Error e),
              [Registry.Sent (Registry.Header_Set "User-Agent" ua r);
               Registry.BodyRead b])).
Proof.
  intros W ua args. repeat split.
  - intros url e Hargs. unfold Registry.WebReader_as. now rewrite Hargs.
  - intros url r e Hargs Hreq Hdo. unfold Registry.WebReader_as.
    rewrite Hargs, Hreq. simpl. now rewrite Hdo.
  - intros url r b e Hargs Hreq Hdo Hread. unfold Registry.WebReader_as.
    rewrite Hargs, Hreq. simpl. rewrite Hdo. simpl. now rewrite Hread.
Qed.

(** X13, run: no network, and an argument that is not an object. *)
Lemma WebReader_failures_are_strings_witness :
  fst (Registry.WebReader001 (W:=Registry.unplugged)
         (Json.object1 "url" "http://x"))
  = Registry.Returned "dial tcp: no route to host"
  /\ Registry.WebReader001 (W:=Registry.unplugged) "7"
     = (Registry.Returned
          "json: cannot unmarshal number into Go value of type struct { Url string }",
        []).
Proof.
  destruct (WebReader_failures_are_strings Registry.unplugged
              "Mozilla/5.0 (Windows NT 10.0; Win64; x64) AppleWebKit/537.36"
              (Json.object1 "url" "http://x")) as (_ & Hdo & _).
  destruct (WebReader_failures_are_strings Registry.unplugged
              "Mozilla/5.0 (Windows NT 10.0; Win64; x64) AppleWebKit/537.36"
              "7") as (Hdec & _ & _).
  split.
  - unfold Registry.WebReader001.
    rewrite (Hdo "http://x" (Registry.mkRequest "GET" "http://x" [])
               (mkError "dial tcp: no route to host")
               eq_refl eq_refl eq_refl).
    reflexivity.
  - unfold Registry.WebReader001.
    exact (Hdec "" _ eq_refl).
Defined.

(** X14.  [webSearch] never panics and never searches twice: when the
    argument does not decode it returns the decoder's error and reaches
    no network; otherwise it calls the provider once, for the decoded
    keyword and ten results, and returns the provider's error or the
    encoding of the results, one per hit and in the provider's order. *)
Theorem webSearch_searches_once :
  forall (W : Registry.World) (args : string),
    Registry.isPanic (fst (Registry.webSearch args)) = false
    /\ match Json.Unmarshal args "Keyword" "" with
       | (_, Some e) =>
           Registry.webSearch args = (Registry.Returned (Error e), [])
       | (keyword, None) =>
           snd (Registry.webSearch args) = [Registry.Searched keyword 10]
           /\ fst (Registry.webSearch args)
              = match Registry.Search keyword 10 with
                | inl e => Registry.Returned (Error e)
                | inr res =>
                    Registry.Returned
                      (Registry.Marshal
                         (map (fun h =>
                                 Registry.mkresult (Registry.hitTitle h)
                                   (Registry.hitLink h)
                                   (Registry.hitDescription h))
                            res))
                end
       end.
Proof.
  intros W args. split; [apply webSearch_returns|].
  unfold Registry.webSearch.
  destruct (Json.Unmarshal args "Keyword" "") as [kw [e|]]; [reflexivity|].
  simpl. destruct (Registry.Search kw 10) as [e|res]; simpl; [now split|].
  split; [reflexivity|]. now rewrite fold_append_map.
Qed.
